(** * run.py: configure, build and run a single C/C++ file

    A shallow embedding of [run.py] and the properties of its target-name
    derivation, environment probing and orchestration.

    Conventions of the embedding
    - Python [str] is [string]; case folding acts on the letters A-Z.
    - Python [int] is [Z].
    - [pathlib] paths are the POSIX flavour: an anchor flag and the list of
      components.
    - Code that may raise returns a [Result]; code that prints, writes the log
      or touches the temporary directories runs in the monad [Py], a state
      monad over [Machine] with exceptions.
    - Everything the script asks of its environment (search path, external
      processes, file system) is answered by a [World]. *)

From Stdlib Require Import Strings.String Strings.Ascii Lists.List.
From Stdlib Require Import ZArith.ZArith Bool.Bool micromega.Lia.
From Stdlib Require Import Numbers.DecimalString.
Import ListNotations.

Open Scope list_scope.
Open Scope string_scope.

(* ================================================================== *)
(** * Part I: the embedding                                            *)
(* ================================================================== *)

(** ** Exceptions and results *)

Inductive exn : Type :=
| ValueError
| AttributeError
| TypeError
| JSONDecodeError
| OSError
| FileNotFoundError
| CalledProcessError (returncode : Z)
| SystemExit (code : Z).

Inductive Result (A : Type) : Type :=
| Ok (a : A)
| Raise (e : exn).
Arguments Ok {A} a.
Arguments Raise {A} e.

(** [except Exception]: everything but [SystemExit]. *)
Definition is_Exception (e : exn) : bool :=
  match e with SystemExit _ => false | _ => true end.

(** [except ValueError]: [json.JSONDecodeError] derives from it. *)
Definition is_ValueError (e : exn) : bool :=
  match e with ValueError | JSONDecodeError => true | _ => false end.

(** [except OSError]: [FileNotFoundError] derives from it. *)
Definition is_OSError (e : exn) : bool :=
  match e with OSError | FileNotFoundError => true | _ => false end.

Definition is_CalledProcessError (e : exn) : bool :=
  match e with CalledProcessError _ => true | _ => false end.

(** ** Python strings *)

Module Str.

Definition len (s : string) : Z := Z.of_nat (String.length s).

Definition is_upper (c : ascii) : bool :=
  let n := nat_of_ascii c in (65 <=? n)%nat && (n <=? 90)%nat.

Definition lower_char (c : ascii) : ascii :=
  if is_upper c then ascii_of_nat (nat_of_ascii c + 32) else c.

(** [s.lower()] on ASCII text, where the letters A-Z are all it folds.
    On other text Python folds every cased letter; properties that depend
    on the folded value are stated for ASCII text. *)
Fixpoint lower (s : string) : string :=
  match s with
  | EmptyString => EmptyString
  | String c s' => String (lower_char c) (lower s')
  end.

(** [s.rfind(c)]: the highest index of [c] in [s], or -1. *)
Fixpoint rfind (c : ascii) (s : string) : Z :=
  match s with
  | EmptyString => (-1)%Z
  | String a s' =>
      let r := rfind c s' in
      if (0 <=? r)%Z then (r + 1)%Z
      else if Ascii.eqb a c then 0%Z else (-1)%Z
  end.

(** [s[i:]] for [0 <= i]. *)
Definition slice_from (s : string) (i : Z) : string :=
  substring (Z.to_nat i) (String.length s - Z.to_nat i) s.

(** [s[:-k]] for [0 < k]. *)
Definition slice_drop_last (s : string) (k : Z) : string :=
  substring 0 (String.length s - Z.to_nat k) s.

(** [s.lstrip(c)] for a one-character set. *)
Fixpoint lstrip (c : ascii) (s : string) : string :=
  match s with
  | EmptyString => EmptyString
  | String a s' => if Ascii.eqb a c then lstrip c s' else s
  end.

(** [s.replace(a, b)] for one-character [a] and [b]. *)
Fixpoint replace (a b : ascii) (s : string) : string :=
  match s with
  | EmptyString => EmptyString
  | String c s' => String (if Ascii.eqb c a then b else c) (replace a b s')
  end.

(** [sub in s] *)
Fixpoint contains (sub s : string) : bool :=
  prefix sub s ||
  match s with
  | EmptyString => false
  | String _ s' => contains sub s'
  end.

(** [s.split(c)] *)
Fixpoint split (c : ascii) (s : string) : list string :=
  match s with
  | EmptyString => [EmptyString]
  | String a s' =>
      if Ascii.eqb a c then EmptyString :: split c s'
      else match split c s' with
           | [] => [String a EmptyString]
           | h :: t => String a h :: t
           end
  end.

(** [sep.join(l)] *)
Definition join (sep : string) (l : list string) : string :=
  String.concat sep l.

(** Truthiness of a [str]. *)
Definition truthy (s : string) : bool := negb (s =? "").

(** [str(n)] for an [int]. *)
Definition of_int (n : Z) : string :=
  NilZero.string_of_int (Z.to_int n).

End Str.

(** ** pathlib, POSIX flavour *)

Record Path : Type := mkPath {
  anchored : bool;          (* the path starts at the root "/" *)
  parts : list string       (* its components, the root excluded *)
}.

Module PurePath.

Definition is_component (c : string) : bool :=
  negb (c =? "") && negb (c =? ".").

(** [Path(s)]: split at the separator, drop empty and "." components.
    A leading "//", which pathlib keeps apart from "/", is taken for "/". *)
Definition of_str (s : string) : Path :=
  mkPath (prefix "/" s) (filter is_component (Str.split "/" s)).

(** [p.name] *)
Definition name (p : Path) : string := last (parts p) "".

(** [p.suffix] *)
Definition suffix (p : Path) : string :=
  let name := name p in
  let i := Str.rfind "." name in
  if (0 <? i)%Z && (i <? Str.len name - 1)%Z
  then Str.slice_from name i
  else "".

(** [p.with_suffix(suffix)] *)
Definition with_suffix (p : Path) (suffix' : string) : Result Path :=
  if Str.contains "/" suffix' then Raise ValueError
  else if (Str.truthy suffix' && negb (prefix "." suffix')) || (suffix' =? ".")
  then Raise ValueError
  else
    let name := name p in
    if negb (Str.truthy name) then Raise ValueError
    else
      let old_suffix := suffix p in
      let name' :=
        if negb (Str.truthy old_suffix) then name ++ suffix'
        else Str.slice_drop_last name (Str.len old_suffix) ++ suffix' in
      Ok (mkPath (anchored p) (removelast (parts p) ++ [name'])).

(** [p.as_posix()], which is also [str(p)] in this flavour. *)
Definition as_posix (p : Path) : string :=
  match anchored p, parts p with
  | false, [] => "."
  | false, l => Str.join "/" l
  | true, l => "/" ++ Str.join "/" l
  end.

(** [p / q] *)
Definition truediv (p q : Path) : Path :=
  if anchored q then q
  else mkPath (anchored p) (parts p ++ parts q).

(** [p.parent] *)
Definition parent (p : Path) : Path :=
  mkPath (anchored p) (removelast (parts p)).

Fixpoint strip_prefix (pre l : list string) : option (list string) :=
  match pre, l with
  | [], _ => Some l
  | a :: pre', b :: l' => if a =? b then strip_prefix pre' l' else None
  | _ :: _, [] => None
  end.

(** [p.relative_to(other)] *)
Definition relative_to (p other : Path) : Result Path :=
  if Bool.eqb (anchored p) (anchored other) then
    match strip_prefix (parts other) (parts p) with
    | Some rest => Ok (mkPath false rest)
    | None => Raise ValueError
    end
  else Raise ValueError.

Definition eqb (p q : Path) : bool :=
  Bool.eqb (anchored p) (anchored q) &&
  if list_eq_dec string_dec (parts p) (parts q) then true else false.

End PurePath.

Notation "p // q" := (PurePath.truediv p q) (at level 40, left associativity).

(** ** The target resolver *)

(** [normalize_target_in_project(file_path, project_root)].
    [resolve] is [Path.resolve], answered by the file system. *)
Definition normalize_target_in_project
    (resolve : Path -> Path) (file_path project_root : Path) : Result string :=
  let rel :=
    match PurePath.relative_to (resolve file_path) (resolve project_root) with
    | Ok r => Ok r
    | Raise e =>
        if is_Exception e then Ok (PurePath.of_str (PurePath.name file_path))
        else Raise e
    end in
  match rel with
  | Raise e => Raise e
  | Ok rel =>
      match PurePath.with_suffix rel "" with
      | Raise e => Raise e
      | Ok p =>
          let posix_no_ext := PurePath.as_posix p in
          let base := Str.replace "/" "_" posix_no_ext in
          let ext := Str.lstrip "." (Str.lower (PurePath.suffix file_path)) in
          Ok (if Str.truthy ext then base ++ "_" ++ ext else base)
      end
  end.

(** ** Generators and the commands of the project build *)

Definition PREFERRED_GENERATORS : list string :=
  [ "Ninja Multi-Config";
    "Ninja";
    "Unix Makefiles";
    "MinGW Makefiles";
    "Visual Studio 17 2022" ].

Definition PREFERRED_COMPILERS_C : list string := ["cc"; "gcc"; "clang"; "cl"].
Definition PREFERRED_COMPILERS_CXX : list string := ["c++"; "g++"; "clang++"; "cl"].

Definition LOG_FILE : Path := PurePath.of_str "build_output.log".

Definition is_multi_config (generator : string) : bool :=
  let name := Str.lower generator in
  Str.contains "multi-config" name || Str.contains "visual studio" name.

Definition nonempty {A : Type} (l : list A) : bool :=
  match l with [] => false | _ :: _ => true end.

(** The [cmd] list that [configure_build] hands to [subprocess.run]. *)
Definition configure_build_cmd
    (generator build_config : string) (extra_args : list string) : list string :=
  let cmd := ["cmake"; "-S"; "."; "-B"; "build"; "-G"; generator; "-Wno-dev"] in
  let cmd :=
    if negb (is_multi_config generator)
    then (cmd ++ [("-DCMAKE_BUILD_TYPE=" ++ build_config)%string])%list
    else cmd in
  if nonempty extra_args then (cmd ++ extra_args)%list else cmd.

(** The [cmd] list that [build_target] hands to [subprocess.run]. *)
Definition build_target_cmd
    (target generator build_config : string) (extra_args : list string) : list string :=
  let cmd := ["cmake"; "--build"; "build"; "--target"; target] in
  let cmd :=
    if is_multi_config generator
    then (cmd ++ ["--config"; build_config])%list
    else cmd in
  if nonempty extra_args then (cmd ++ extra_args)%list else cmd.

(** The [cmd] list of [direct_compile], for the binary [output]. *)
Definition direct_compile_cmd
    (file_path compiler : string) (output : Path) (is_c : bool) : list string :=
  if compiler =? "cl" then
    let std_flag := if is_c then "/std:c17" else "/std:c++20" in
    let lang_flag := if is_c then "/TC" else "/TP" in
    [compiler; file_path; lang_flag; std_flag;
     "/Fe" ++ PurePath.as_posix output; "/nologo"]
  else
    let std_flag := if is_c then "-std=c17" else "-std=c++20" in
    [compiler; file_path; std_flag; "-O0"; "-g"; "-o"; PurePath.as_posix output].

(** ** Decoded JSON *)

#[local] Unset Elimination Schemes.
Inductive json : Type :=
| JNull                                   (* None *)
| JBool (b : bool)
| JNum (literal : string)                 (* an int or a float *)
| JStr (s : string)
| JArr (items : list json)
| JObj (members : list (string * json)).  (* members in document order *)
#[local] Set Elimination Schemes.

Module Json.

(** The value a [dict] built from [members] holds for [key]: of two
    members with one key the later one stays. *)
Fixpoint lookup (key : string) (members : list (string * json)) : option json :=
  match members with
  | [] => None
  | (k, v) :: rest =>
      match lookup key rest with
      | Some v' => Some v'
      | None => if k =? key then Some v else None
      end
  end.

(** [d.get(key, default)]; only a [dict] has [get]. *)
Definition get (d : json) (key : string) (default : json) : Result json :=
  match d with
  | JObj members =>
      Ok (match lookup key members with Some v => v | None => default end)
  | _ => Raise AttributeError
  end.

Fixpoint keys (seen : list string) (members : list (string * json)) : list string :=
  match members with
  | [] => []
  | (k, _) :: rest =>
      if existsb (String.eqb k) seen then keys seen rest
      else k :: keys (k :: seen) rest
  end.

(** [for g in v]: the items of a list, the keys of a dict, the characters
    of a str; nothing else is iterable. *)
Definition iter (v : json) : Result (list json) :=
  match v with
  | JArr items => Ok items
  | JObj members => Ok (map JStr (keys [] members))
  | JStr s => Ok (map (fun c => JStr (String c "")) (list_ascii_of_string s))
  | _ => Raise TypeError
  end.

(** Lists and dicts cannot be members of a set. *)
Definition hashable (v : json) : bool :=
  match v with JArr _ | JObj _ => false | _ => true end.

(** [str(v)] inside an f-string: a str is itself, [None] and the booleans
    have their names; [format] answers for numbers, lists and dicts. *)
Definition str (format : json -> string) (v : json) : string :=
  match v with
  | JStr s => s
  | JNull => "None"
  | JBool true => "True"
  | JBool false => "False"
  | _ => format v
  end.

(** [candidate == v] for a str [candidate]. *)
Definition eq_str (candidate : string) (v : json) : bool :=
  match v with JStr s => candidate =? s | _ => false end.

End Json.

(** ** The environment *)

(** What [subprocess.run] returns: the exit code, the captured standard
    output, and all the process wrote (standard output and error). *)
Record CompletedProcess : Type := mkCompleted {
  returncode : Z;
  stdout : string;
  output : string
}.

Record World : Type := mkWorld {
  environ_CMAKE_BUILD_CONFIG : option string; (* os.environ.get("CMAKE_BUILD_CONFIG") *)
  os_name : string;                           (* os.name *)
  cwd : Path;                                 (* Path.cwd() *)
  resolve : Path -> Path;                     (* Path.resolve *)
  path_exists : Path -> bool;                 (* Path.exists, files outside the temporary directories *)
  which : string -> option string;            (* shutil.which *)
  run : list string -> Result CompletedProcess; (* subprocess.run without check *)
  json_loads : string -> Result json;         (* json.loads *)
  mkdtemp : string -> string;                 (* tempfile.mkdtemp(prefix=...) *)
  rmtree_fails : Path -> bool;                (* shutil.rmtree raises an OSError *)
  read_text : string -> Result string;        (* reading back the log with the given content *)
  format : json -> string                     (* str(v) of a decoded number, list or dict *)
}.

Definition DEFAULT_CONFIG (w : World) : string :=
  match environ_CMAKE_BUILD_CONFIG w with
  | Some v => v
  | None => "Debug"
  end.

(** [exe_path(target, generator)] *)
Definition exe_path (w : World) (target generator : string) : Path :=
  let base := PurePath.of_str "build" in
  let base :=
    if is_multi_config generator
    then base // PurePath.of_str (DEFAULT_CONFIG w)
    else base in
  let suffix := if os_name w =? "nt" then ".exe" else "" in
  base // PurePath.of_str (target ++ suffix).

(** [choose_compiler(preferred)] *)
Fixpoint choose_compiler (w : World) (preferred : list string) : option string :=
  match preferred with
  | [] => None
  | compiler :: rest =>
      match which w compiler with
      | Some found => if Str.truthy found then Some compiler else choose_compiler w rest
      | None => choose_compiler w rest
      end
  end.

(** ** The state the script acts on *)

Record Machine : Type := mkMachine {
  printed : list string;          (* the lines written by print, in order *)
  log : option string;            (* the content of LOG_FILE, if the file exists *)
  tmpdirs : list Path;            (* the temporary directories made by the script that exist *)
  spawned : list (list string)    (* the commands started, in order *)
}.

Definition Py (A : Type) : Type := Machine -> Machine * Result A.

Definition ret {A : Type} (a : A) : Py A := fun m => (m, Ok a).

Definition raise {A : Type} (e : exn) : Py A := fun m => (m, Raise e).

Definition bind {A B : Type} (c : Py A) (k : A -> Py B) : Py B :=
  fun m =>
    match c m with
    | (m', Ok a) => k a m'
    | (m', Raise e) => (m', Raise e)
    end.

Definition lift {A : Type} (r : Result A) : Py A := fun m => (m, r).

Declare Scope py_scope.
Delimit Scope py_scope with py.
Notation "x <- c ;; k" := (bind c (fun x => k))
  (at level 61, c at next level, right associativity) : py_scope.
Notation "c ;; k" := (bind c (fun _ => k))
  (at level 61, right associativity) : py_scope.
Open Scope py_scope.

(** [try: body  except <handles> as e: handler e] *)
Definition try_except {A : Type}
    (body : Py A) (handles : exn -> bool) (handler : exn -> Py A) : Py A :=
  fun m =>
    match body m with
    | (m', Raise e) => if handles e then handler e m' else (m', Raise e)
    | r => r
    end.

(** [try: body  finally: final] *)
Definition try_finally {A : Type} (body : Py A) (final : Py unit) : Py A :=
  fun m =>
    match body m with
    | (m', r) =>
        match final m' with
        | (m'', Ok _) => (m'', r)
        | (m'', Raise e) => (m'', Raise e)
        end
    end.

Definition when (b : bool) (c : Py unit) : Py unit :=
  if b then c else ret tt.

Definition print (s : string) : Py unit :=
  fun m => (mkMachine (printed m ++ [s])%list (log m) (tmpdirs m) (spawned m), Ok tt).

Definition write_log (content : string) : Py unit :=
  fun m => (mkMachine (printed m) (Some content) (tmpdirs m) (spawned m), Ok tt).

Definition log_text (m : Machine) : string :=
  match log m with Some t => t | None => "" end.

Definition append_log (s : string) : Py unit :=
  fun m => write_log (log_text m ++ s) m.

Definition sys_exit {A : Type} (code : Z) : Py A := raise (SystemExit code).

(** [subprocess.run(cmd, check=True)] *)
Definition subprocess_run (w : World) (cmd : list string) : Py CompletedProcess :=
  fun m =>
    (mkMachine (printed m) (log m) (tmpdirs m) (spawned m ++ [cmd])%list,
     match run w cmd with
     | Ok p =>
         if (returncode p =? 0)%Z then Ok p
         else Raise (CalledProcessError (returncode p))
     | Raise e => Raise e
     end).

(** [with log_file.open("a") as log: log.write(line); subprocess.run(cmd,
    check=True, stdout=log, stderr=log)].  The file is created when absent;
    the process writes through the descriptor while [line] waits in the
    buffer of [log] until the file is closed, so it lands after the output
    of the process. *)
Definition run_logged (w : World) (line : string) (cmd : list string) : Py unit :=
  append_log "" ;;
  try_finally
    (fun m =>
       let (m', r) := subprocess_run w cmd m in
       match run w cmd with
       | Ok p => (fst (append_log (output p) m'), r)
       | Raise _ => (m', r)
       end)
    (append_log line) ;;
  ret tt.

(** [fail(message, code)] *)
Definition fail {A : Type} (message : string) (code : Z) : Py A :=
  print message ;; sys_exit code.

(** [fail_with_log(message, log_file, code)] *)
Definition fail_with_log {A : Type} (w : World) (message : string) (code : Z) : Py A :=
  print message ;;
  print ("---- build log (" ++ PurePath.as_posix LOG_FILE ++ ") ----") ;;
  (fun m =>
     match log m with
     | Some content =>
         try_except
           (text <- lift (read_text w content) ;; print text)
           is_OSError
           (fun _ => print "(failed to read log)") m
     | None => print "(log file not found)" m
     end) ;;
  print "---- end log ----" ;;
  sys_exit code.

(** [except (subprocess.CalledProcessError, FileNotFoundError,
    json.JSONDecodeError)] *)
Definition is_probe_error (e : exn) : bool :=
  match e with
  | CalledProcessError _ | FileNotFoundError | JSONDecodeError => true
  | _ => false
  end.

(** [read_capabilities()] *)
Definition read_capabilities (w : World) : Py json :=
  try_except
    (result <- subprocess_run w ["cmake"; "-E"; "capabilities"] ;;
     lift (json_loads w (stdout result)))
    is_probe_error
    (fun _ => ret (JObj [])).

Fixpoint for_each {A B : Type} (f : A -> Result B) (l : list A) : Result (list B) :=
  match l with
  | [] => Ok []
  | a :: rest =>
      match f a with
      | Raise e => Raise e
      | Ok b =>
          match for_each f rest with
          | Raise e => Raise e
          | Ok bs => Ok (b :: bs)
          end
      end
  end.

(** [[g.get("name") for g in data.get("generators", [])]] *)
Definition generator_names (data : json) : Result (list json) :=
  match Json.get data "generators" (JArr []) with
  | Raise e => Raise e
  | Ok gens =>
      match Json.iter gens with
      | Raise e => Raise e
      | Ok items => for_each (fun g => Json.get g "name" JNull) items
      end
  end.

(** [{g.get("name") for g in data.get("generators", [])}]: as above, and
    each name must be hashable to enter the set. *)
Definition generator_name_set (data : json) : Result (list json) :=
  match Json.get data "generators" (JArr []) with
  | Raise e => Raise e
  | Ok gens =>
      match Json.iter gens with
      | Raise e => Raise e
      | Ok items =>
          for_each
            (fun g =>
               match Json.get g "name" JNull with
               | Raise e => Raise e
               | Ok n => if Json.hashable n then Ok n else Raise TypeError
               end)
            items
      end
  end.

(** [choose_generator(preferred)] *)
Definition choose_generator (w : World) (preferred : list string) : Py (option string) :=
  data <- read_capabilities w ;;
  available <- lift (generator_name_set data) ;;
  ret (find (fun candidate => existsb (Json.eq_str candidate) available) preferred).

(** [configure_build(generator, log_file, build_config, extra_args)] *)
Definition configure_build
    (w : World) (generator build_config : string) (extra_args : list string) : Py unit :=
  run_logged w
    ("Configuring with generator: " ++ generator ++ String "010" "")
    (configure_build_cmd generator build_config extra_args).

(** [build_target(target, generator, log_file, build_config, extra_args)] *)
Definition build_target
    (w : World) (target generator build_config : string) (extra_args : list string)
    : Py unit :=
  run_logged w
    ("Building target: " ++ target ++ String "010" "")
    (build_target_cmd target generator build_config extra_args).

(** [direct_compile(file_path, compiler, log_file, is_c)] *)
Definition direct_compile
    (w : World) (file_path compiler : string) (is_c : bool) : Py Path :=
  let temp_dir := PurePath.of_str (mkdtemp w (if is_c then "c-run-" else "cpp-run-")) in
  (fun m => (mkMachine (printed m) (log m) (temp_dir :: tmpdirs m) (spawned m), Ok tt)) ;;
  let output := temp_dir // PurePath.of_str (if os_name w =? "nt" then "a.exe" else "a.out") in
  run_logged w
    ("Compiling with " ++ compiler ++ String "010" "")
    (direct_compile_cmd file_path compiler output is_c) ;;
  ret output.

(** ** The orchestration *)

(** The result of [parser.parse_args()]. *)
Record Parsed : Type := mkParsed {
  file : string;
  args : list string;
  generator : option string;
  config : option string;
  cmake_arg : list string;
  build_arg : list string;
  list_generators : bool;
  print_binary : bool
}.

(** [a or b] for an optional str [a]. *)
Definition or_else (a : option string) (b : string) : string :=
  match a with
  | Some s => if Str.truthy s then s else b
  | None => b
  end.

(** [a or b] where [b] is itself optional. *)
Definition or_maybe (a : option string) (b : Py (option string)) : Py (option string) :=
  match a with
  | Some s => if Str.truthy s then ret (Some s) else b
  | None => b
  end.

Definition opt_truthy (a : option string) : bool :=
  match a with Some s => Str.truthy s | None => false end.

(** Lines 183-193 of [main]: [--list-generators]. *)
Definition list_generators_and_exit {A : Type} (w : World) : Py A :=
  caps <- read_capabilities w ;;
  gens <- lift (generator_names caps) ;;
  (if negb (nonempty gens)
   then print "No generators found. Ensure CMake is installed and on PATH."
   else
     print "Available CMake generators:" ;;
     fold_left (fun acc name => acc ;; print ("- " ++ Json.str (format w) name))
       gens (ret tt)) ;;
  sys_exit 0.

(** Lines 198-213 of [main]: [--print-binary]. *)
Definition print_binary_and_exit {A : Type} (w : World) (parsed : Parsed) : Py A :=
  let project_root_temp := resolve w (cwd w) in
  let file_abs_temp := resolve w (PurePath.of_str (file parsed)) in
  try_except
    (lift (PurePath.relative_to file_abs_temp project_root_temp) ;;
     target_temp <- lift (normalize_target_in_project (resolve w) file_abs_temp project_root_temp) ;;
     gen_temp <- or_maybe (generator parsed) (choose_generator w PREFERRED_GENERATORS) ;;
     match gen_temp with
     | Some g =>
         if Str.truthy g
         then print (PurePath.as_posix (resolve w (exe_path w target_temp g)))
         else print "(no generator available)"
     | None => print "(no generator available)"
     end)
    is_ValueError
    (fun _ => print "(file outside project)") ;;
  sys_exit 0.

(** Lines 216-226 and 229-239 of [main]: the two fallbacks to direct
    compilation run the same statements after their own first message.
    Returns [binary] and [cleanup_dir]. *)
Definition direct_compilation
    (w : World) (parsed : Parsed) (is_c : bool) (message : string)
    : Py (Path * option Path) :=
  print message ;;
  let compiler_list := if is_c then PREFERRED_COMPILERS_C else PREFERRED_COMPILERS_CXX in
  let compiler := choose_compiler w compiler_list in
  compiler <-
    (if negb (opt_truthy compiler)
     then fail ("No compiler found. Looked for: " ++ Str.join ", " compiler_list) 1
     else ret (or_else compiler "")) ;;
  try_except
    (binary <- direct_compile w (file parsed) compiler is_c ;;
     ret (binary, Some (PurePath.parent binary)))
    is_CalledProcessError
    (fun err =>
       match err with
       | CalledProcessError code =>
           fail_with_log w
             ("Compilation failed with exit code " ++ Str.of_int code ++
              ". Logs at " ++ PurePath.as_posix LOG_FILE ++ ".") code
       | _ => raise err
       end).

(** Lines 241-254 of [main]: the project build.  Returns [binary] and
    the [cleanup_dir] left at [None]. *)
Definition project_build
    (w : World) (parsed : Parsed) (file_abs project_root : Path) (build_config : string)
    : Py (Path * option Path) :=
  target <- lift (normalize_target_in_project (resolve w) file_abs project_root) ;;
  generator <- or_maybe (generator parsed) (choose_generator w PREFERRED_GENERATORS) ;;
  generator <-
    (if negb (opt_truthy generator)
     then fail ("No suitable CMake generator found. Tried: " ++
                Str.join ", " PREFERRED_GENERATORS) 1
     else ret (or_else generator "")) ;;
  try_except
    (configure_build w generator build_config (cmake_arg parsed) ;;
     build_target w target generator build_config (build_arg parsed))
    is_CalledProcessError
    (fun err =>
       match err with
       | CalledProcessError code =>
           fail_with_log w
             ("CMake failed with exit code " ++ Str.of_int code ++
              ". Logs at " ++ PurePath.as_posix LOG_FILE ++ ".") code
       | _ => raise err
       end) ;;
  let binary := exe_path w target generator in
  when (negb (path_exists w binary))
       (fail ("Built binary not found at " ++ PurePath.as_posix binary) 1) ;;
  ret (binary, None).

(** Lines 256-270 of [main]: run the binary, then clean up. *)
Definition execute
    (w : World) (binary : Path) (cleanup_dir : option Path) (exec_args : list string)
    : Py unit :=
  print ("--- Executing: " ++ PurePath.as_posix binary) ;;
  when (nonempty exec_args) (print ("--- Arguments: " ++ Str.join " " exec_args)) ;;
  print ("-------------------------------" ++ String "010" "") ;;
  try_finally
    (try_except
       (subprocess_run w (PurePath.as_posix binary :: exec_args) ;; ret tt)
       is_CalledProcessError
       (fun err =>
          match err with
          | CalledProcessError code =>
              fail ("Executable returned non-zero exit code " ++ Str.of_int code) code
          | _ => raise err
          end))
    (fun m =>
       match cleanup_dir with
       | Some d =>
           if existsb (PurePath.eqb d) (tmpdirs m) then
             try_except
               ((if rmtree_fails w d then raise OSError else ret tt) ;;
                fun m' =>
                  (mkMachine (printed m') (log m')
                     (filter (fun x => negb (PurePath.eqb d x)) (tmpdirs m'))
                     (spawned m'), Ok tt))
               is_OSError
               (fun _ => ret tt) m
           else (m, Ok tt)
       | None => (m, Ok tt)
       end).

(** The first lines the two fallbacks print (lines 216 and 229). *)
Definition NO_CMAKE_MESSAGE : string :=
  "CMake is not installed or not on PATH; falling back to direct compilation.".
Definition OUTSIDE_MESSAGE : string :=
  "Warning: the provided file is outside this project; falling back to direct compilation.".

(** Lines 153-254 of [main], from the parsed command line on: all that
    comes before the binary is run.  Returns [binary] and [cleanup_dir]. *)
Definition main_build (w : World) (parsed : Parsed) : Py (Path * option Path) :=
  write_log "" ;;
  let file_path := file parsed in
  let project_root := resolve w (cwd w) in
  let file_abs := resolve w (PurePath.of_str file_path) in
  in_project <-
    try_except
      (lift (PurePath.relative_to file_abs project_root) ;; ret true)
      is_ValueError
      (fun _ => ret false) ;;
  when (list_generators parsed) (list_generators_and_exit w) ;;
  let is_c := Str.lower (PurePath.suffix (PurePath.of_str file_path)) =? ".c" in
  let build_config := or_else (config parsed) (DEFAULT_CONFIG w) in
  when (print_binary parsed) (print_binary_and_exit w parsed) ;;
  match which w "cmake" with
  | None =>
      direct_compilation w parsed is_c
        NO_CMAKE_MESSAGE
  | Some _ =>
      if negb in_project then
        direct_compilation w parsed is_c
          OUTSIDE_MESSAGE
      else
        project_build w parsed file_abs project_root build_config
  end.

(** [main()]: lines 153-254, then lines 256-270. *)
Definition main (w : World) (parsed : Parsed) : Py unit :=
  built <- main_build w parsed ;;
  execute w (fst built) (snd built) (args parsed).

(** The machine the script starts on. *)
Definition boot : Machine := mkMachine [] None [] [].

(** The exit status of the process: 0 when [main] returns; the low eight
    bits of the code handed to [sys.exit], which is the code itself from 0
    to 255; 1 for an exception nobody caught. *)
Definition exit_status (r : Result unit) : Z :=
  match r with
  | Ok _ => 0%Z
  | Raise (SystemExit code) => (code mod 256)%Z
  | Raise _ => 1%Z
  end.

(** ** Notions the properties are stated with *)

(** [c in s] for a character [c]. *)
Fixpoint occurs (c : ascii) (s : string) : bool :=
  match s with
  | EmptyString => false
  | String a s' => Ascii.eqb a c || occurs c s'
  end.

(** The text after the last [c] of [s], if [c] occurs in [s]. *)
Fixpoint after_last (c : ascii) (s : string) : option string :=
  match s with
  | EmptyString => None
  | String a s' =>
      match after_last c s' with
      | Some t => Some t
      | None => if Ascii.eqb a c then Some s' else None
      end
  end.

(** The extension of a file name: what follows its last dot, provided
    that something follows it and something precedes it. *)
Definition extension (name : string) : string :=
  match after_last "." name with
  | Some e =>
      if (e =? "") || (String.length e + 1 =? String.length name)%nat then "" else e
  | None => ""
  end.

(** A file name without its extension. *)
Definition stem (name : string) : string :=
  let ext := extension name in
  if ext =? "" then name
  else substring 0 (String.length name - (String.length ext + 1)) name.

(** Text of the ASCII range. *)
Definition is_ascii_char (c : ascii) : bool := (nat_of_ascii c <? 128)%nat.

Fixpoint is_ascii (s : string) : bool :=
  match s with
  | EmptyString => true
  | String c s' => is_ascii_char c && is_ascii s'
  end.

Definition UPPER_CASE : string := "ABCDEFGHIJKLMNOPQRSTUVWXYZ".
Definition LOWER_CASE : string := "abcdefghijklmnopqrstuvwxyz".

(** The letter of [to] at the place that [c] has in [from], and [c] itself
    when it is not in [from]. *)
Fixpoint translate (from to : string) (c : ascii) : ascii :=
  match from, to with
  | String f from', String t to' =>
      if Ascii.eqb c f then t else translate from' to' c
  | _, _ => c
  end.

(** ASCII text with each upper-case letter turned into its lower-case
    letter. *)
Fixpoint lowercased (s : string) : string :=
  match s with
  | EmptyString => EmptyString
  | String c s' => String (translate UPPER_CASE LOWER_CASE c) (lowercased s')
  end.

(** An option value as [main] takes it: the empty string is no value. *)
Definition given (value : option string) : option string :=
  match value with
  | Some EmptyString => None
  | _ => value
  end.

(** The target identifier as the specification words it, for the path
    [rel] of a file relative to the project root: the relative path, its
    extension dropped, each separator turned into an underscore, then an
    underscore and the lowercased extension unless the file has none. *)
Definition resolveTarget (rel : list string) : string :=
  let path := Str.join "/" rel in
  let ext := extension (last rel "") in
  if ext =? "" then Str.replace "/" "_" path
  else
    let dropped := substring 0 (String.length path - (String.length ext + 1)) path in
    Str.replace "/" "_" dropped ++ "_" ++ lowercased ext.

(** The path of the file found at [rel] below [root]. *)
Definition under (root : Path) (rel : list string) : Path :=
  mkPath (anchored root) (parts root ++ rel).

(** An absolute path. *)
Definition abs (l : list string) : Path := mkPath true l.

(** A component that holds neither a separator nor the joiner. *)
Definition plain (c : string) : bool :=
  negb (occurs "/" c) && negb (occurs "_" c).

(** The pieces the identifier of a file is joined from: the directories,
    the stem of the name and, if there is one, the lowercased extension. *)
Definition pieces (rel : list string) : list string :=
  (removelast rel ++
   stem (last rel "") ::
   (if extension (last rel "") =? "" then []
    else [Str.lower (extension (last rel ""))]))%list.

(** The markers by which [is_multi_config] tells a multi-configuration
    generator, looked for in the lowercased name. *)
Definition MULTI_CONFIG_MARKERS : list string := ["multi-config"; "visual studio"].

(** [s] holds [sub] somewhere. *)
Definition holds (sub s : string) : Prop :=
  exists before after, s = before ++ sub ++ after.

(** The name of [generator] contains a multi-configuration marker. *)
Definition names_multi_config (generator : string) : Prop :=
  exists marker, In marker MULTI_CONFIG_MARKERS /\ holds marker (Str.lower generator).

(** A name that makes one path component. *)
Definition single_name (s : string) : bool :=
  negb (occurs "/" s) && PurePath.is_component s.

(** [name] resolves to an executable on the search path ([shutil.which]
    answers with a path, never with the empty string). *)
Definition on_search_path (w : World) (name : string) : Prop :=
  exists path, which w name = Some path /\ path <> "".

(** [x] is the first entry of [preferred] that satisfies [P], or there is
    none. *)
Definition first_such (P : string -> Prop) (preferred : list string)
    (x : option string) : Prop :=
  match x with
  | Some c =>
      exists before after,
        preferred = (before ++ c :: after)%list /\ P c /\
        Forall (fun y => ~ P y) before
  | None => Forall (fun y => ~ P y) preferred
  end.

Definition CAPABILITIES : list string := ["cmake"; "-E"; "capabilities"].

(** The entry [g] of the manifest describes the generator called [n]. *)
Definition describes (g : json) (n : string) : Prop :=
  exists members, g = JObj members /\ Json.lookup "name" members = Some (JStr n).

(** The generator set the build tool reports in [w]: no generator when
    the tool is absent, exits non-zero, prints what is no JSON, or prints
    a manifest without generators; the names of the manifest otherwise. *)
Inductive reports (w : World) : list string -> Prop :=
| tool_absent :
    run w CAPABILITIES = Raise FileNotFoundError ->
    reports w []
| tool_fails (p : CompletedProcess) :
    run w CAPABILITIES = Ok p -> returncode p <> 0%Z ->
    reports w []
| output_malformed (p : CompletedProcess) :
    run w CAPABILITIES = Ok p -> returncode p = 0%Z ->
    json_loads w (stdout p) = Raise JSONDecodeError ->
    reports w []
| manifest_empty (p : CompletedProcess) (members : list (string * json)) :
    run w CAPABILITIES = Ok p -> returncode p = 0%Z ->
    json_loads w (stdout p) = Ok (JObj members) ->
    Json.lookup "generators" members = None ->
    reports w []
| manifest (p : CompletedProcess) (members : list (string * json))
           (gens : list json) (names : list string) :
    run w CAPABILITIES = Ok p -> returncode p = 0%Z ->
    json_loads w (stdout p) = Ok (JObj members) ->
    Json.lookup "generators" members = Some (JArr gens) ->
    Forall2 describes gens names ->
    reports w names.

(** [file] lies inside [root]: below it, or the root itself. *)
Definition inside (root file : Path) : Prop :=
  exists rel, file = under root rel.

(** The two build strategies of the orchestrator. *)
Inductive Strategy : Type := DirectCompile | ProjectBuild.

(** Running the build strategy [s] on the parsed command line: the log
    is emptied, then the file is compiled directly, after the line
    [message], or built through the project. *)
Definition run_strategy
    (w : World) (parsed : Parsed) (s : Strategy) (message : string)
    : Py (Path * option Path) :=
  let project_root := resolve w (cwd w) in
  let file_abs := resolve w (PurePath.of_str (file parsed)) in
  let is_c := Str.lower (PurePath.suffix (PurePath.of_str (file parsed))) =? ".c" in
  write_log "" ;;
  match s with
  | DirectCompile => direct_compilation w parsed is_c message
  | ProjectBuild =>
      project_build w parsed file_abs project_root
        (or_else (config parsed) (DEFAULT_CONFIG w))
  end.

(** The first line of the build log dump of [fail_with_log]. *)
Definition LOG_DUMP_HEADER : string :=
  "---- build log (" ++ PurePath.as_posix LOG_FILE ++ ") ----".

(** A computation that prints nothing when it returns. *)
Definition silent {A : Type} (c : Py A) : Prop :=
  forall m m' a, c m = (m', Ok a) -> printed m' = printed m.

(** A computation that leaves the component [f] of the machine as it is,
    whatever its outcome. *)
Definition keeps {X A : Type} (f : Machine -> X) (c : Py A) : Prop :=
  forall m, f (fst (c m)) = f m.

(** A computation that always ends in an exception. *)
Definition exits {A : Type} (c : Py A) : Prop :=
  forall m m' a, c m <> (m', Ok a).

(** ** Sample environments, for concrete runs *)

Definition sample_manifest : json :=
  JObj [ ("version", JObj [("major", JNum "3")]);
         ("generators",
          JArr [ JObj [("name", JStr "Ninja Multi-Config")];
                 JObj [("name", JStr "Ninja")];
                 JObj [("name", JStr "Unix Makefiles")] ]) ].

(** A POSIX machine with the project at [/proj], the compiler [cc] on the
    search path and, if [cmake] is set, CMake with the generators of
    [sample_manifest]. Compiling exits with [compile_code], the built
    program with [run_code]; the build tool succeeds. *)
Definition sample_world (cmake : bool) (compile_code run_code : Z) : World :=
  {| environ_CMAKE_BUILD_CONFIG := None;
     os_name := "posix";
     cwd := abs ["proj"];
     resolve := fun p => if anchored p then p else abs ["proj"] // p;
     path_exists := fun _ => true;
     which := fun name =>
       if (name =? "cc") || (cmake && (name =? "cmake"))
       then Some ("/usr/bin/" ++ name) else None;
     run := fun cmd =>
       if hd "" cmd =? "cmake" then
         if negb cmake then Raise FileNotFoundError
         else if nth 1 cmd "" =? "-E" then Ok (mkCompleted 0 "{manifest}" "{manifest}")
         else Ok (mkCompleted 0 "-- done" "-- done")
       else if hd "" cmd =? "cc" then Ok (mkCompleted compile_code "" "")
       else Ok (mkCompleted run_code "" "");
     json_loads := fun text =>
       if text =? "{manifest}" then Ok sample_manifest else Raise JSONDecodeError;
     mkdtemp := fun prefix => "/tmp/" ++ prefix ++ "0001";
     rmtree_fails := fun _ => false;
     read_text := fun content => Ok content;
     format := fun v => match v with JStr s => s | _ => "None" end |}.

(** The command line [run.py <file>], with further options. *)
Definition command_line (file : string) (config : option string) : Parsed :=
  {| file := file; args := []; generator := None; config := config;
     cmake_arg := []; build_arg := [];
     list_generators := false; print_binary := false |}.

(** The first entry of [preferred] that is among [names]. *)
Definition first_reported (names preferred : list string) : option string :=
  find (fun c => existsb (String.eqb c) names) preferred.

(** How [main] settles on the generator [g], and the commands it starts
    for that: the [--generator] value when it is not empty; otherwise the
    first preferred generator among those the build tool reports, found
    with one query. *)
Inductive settles (w : World) (parsed : Parsed) (g : string) : list (list string) -> Prop :=
| by_option :
    generator parsed = Some g -> g <> "" ->
    settles w parsed g []
| by_query (names : list string) :
    opt_truthy (generator parsed) = false ->
    reports w names ->
    first_reported names PREFERRED_GENERATORS = Some g ->
    settles w parsed g [CAPABILITIES].

(** [w] with other answers of the search path, of the processes, of the
    file system. *)
Definition with_which (w : World) (which' : string -> option string) : World :=
  mkWorld (environ_CMAKE_BUILD_CONFIG w) (os_name w) (cwd w) (resolve w)
    (path_exists w) which' (run w) (json_loads w) (mkdtemp w)
    (rmtree_fails w) (read_text w) (format w).

Definition with_run (w : World) (run' : list string -> Result CompletedProcess) : World :=
  mkWorld (environ_CMAKE_BUILD_CONFIG w) (os_name w) (cwd w) (resolve w)
    (path_exists w) (which w) run' (json_loads w) (mkdtemp w)
    (rmtree_fails w) (read_text w) (format w).

Definition with_path_exists (w : World) (exists' : Path -> bool) : World :=
  mkWorld (environ_CMAKE_BUILD_CONFIG w) (os_name w) (cwd w) (resolve w)
    exists' (which w) (run w) (json_loads w) (mkdtemp w)
    (rmtree_fails w) (read_text w) (format w).

(** [sample_world] with CMake, where the command whose second word is
    [word] exits with [code]. *)
Definition failing_at (word : string) (code : Z) : World :=
  with_run (sample_world true 0 0)
    (fun cmd =>
       if nth 1 cmd "" =? word then Ok (mkCompleted code "" "error")
       else run (sample_world true 0 0) cmd).

(** The command line [run.py -G <generator> <file>]. *)
Definition command_line_G (file generator : string) : Parsed :=
  {| file := file; args := []; generator := Some generator; config := None;
     cmake_arg := []; build_arg := [];
     list_generators := false; print_binary := false |}.

Definition with_json_loads (w : World) (loads : string -> Result json) : World :=
  mkWorld (environ_CMAKE_BUILD_CONFIG w) (os_name w) (cwd w) (resolve w)
    (path_exists w) (which w) (run w) loads (mkdtemp w)
    (rmtree_fails w) (read_text w) (format w).

(** The command line [run.py <file> a b] with [--list-generators] and
    [--print-binary] as given. *)
Definition command_line_flags (file : string) (list_generators print_binary : bool) : Parsed :=
  {| file := file; args := ["a"; "b"]; generator := None; config := None;
     cmake_arg := []; build_arg := [];
     list_generators := list_generators; print_binary := print_binary |}.

(** [sample_world] with CMake, where the build tool exits with 0 after
    printing [text], which [json.loads] decodes to [data]. *)
Definition printing (text : string) (data : json) : World :=
  with_json_loads
    (with_run (sample_world true 0 0) (fun _ => Ok (mkCompleted 0 text text)))
    (fun t => if t =? text then Ok data else Raise JSONDecodeError).

Definition QUOTE : string := String (ascii_of_nat 34) EmptyString.

(* ================================================================== *)
(** * Part II: properties                                              *)
(* ================================================================== *)

Example normalize_src_foo_c :
  normalize_target_in_project (fun p => p)
    (abs ["proj"; "src"; "foo.c"]) (abs ["proj"]) = Ok "src_foo_c".
Proof. reflexivity. Qed.

(** ** Strings *)

Lemma append_nil_r (s : string) : s ++ "" = s.
Proof. induction s as [|a s IH]; simpl; [reflexivity | now rewrite IH]. Qed.

Lemma append_assoc (a b c : string) : (a ++ b) ++ c = a ++ (b ++ c).
Proof. induction a as [|x a IH]; simpl; [reflexivity | now rewrite IH]. Qed.

Lemma length_append (a b : string) :
  String.length (a ++ b) = String.length a + String.length b.
Proof. induction a as [|x a IH]; simpl; [reflexivity | now rewrite IH]. Qed.

Lemma append_inv_head (a b c : string) : a ++ b = a ++ c -> b = c.
Proof.
  induction a as [|x a IH]; simpl; intros H; [exact H | ].
  injection H as H. now apply IH.
Qed.

Lemma substring_whole (s : string) : substring 0 (String.length s) s = s.
Proof. induction s as [|a s IH]; simpl; [reflexivity | now rewrite IH]. Qed.

Lemma substring_head (a b : string) :
  substring 0 (String.length a) (a ++ b) = a.
Proof.
  induction a as [|x a IH]; simpl.
  - destruct b; reflexivity.
  - now rewrite IH.
Qed.

Lemma substring_tail (a b : string) :
  substring (String.length a) (String.length b) (a ++ b) = b.
Proof.
  induction a as [|x a IH]; simpl; [apply substring_whole | exact IH].
Qed.

Lemma occurs_append (c : ascii) (a b : string) :
  occurs c (a ++ b) = occurs c a || occurs c b.
Proof.
  induction a as [|x a IH]; simpl; [reflexivity | ].
  now rewrite IH, orb_assoc.
Qed.

(** *** rfind *)

Lemma rfind_lower_bound (c : ascii) (s : string) : (-1 <= Str.rfind c s)%Z.
Proof.
  induction s as [|a s IH]; simpl; [lia | ].
  destruct (0 <=? Str.rfind c s)%Z eqn:E.
  - apply Z.leb_le in E. lia.
  - destruct (Ascii.eqb a c); lia.
Qed.

Lemma rfind_absent (c : ascii) (s : string) :
  occurs c s = false -> Str.rfind c s = (-1)%Z.
Proof.
  induction s as [|a s IH]; simpl; [reflexivity | ].
  intros H. apply orb_false_iff in H as [Ha Hs].
  rewrite (IH Hs), Ha. reflexivity.
Qed.

Lemma rfind_last (c : ascii) (a b : string) :
  occurs c b = false -> Str.rfind c (a ++ String c b) = Str.len a.
Proof.
  intros Hb. unfold Str.len. induction a as [|x a IH].
  - simpl. rewrite (rfind_absent _ _ Hb), Ascii.eqb_refl. reflexivity.
  - cbn [append Str.rfind String.length]. rewrite IH.
    destruct (0 <=? Z.of_nat (String.length a))%Z eqn:E.
    + lia.
    + apply Z.leb_gt in E. lia.
Qed.

Lemma rfind_found (c : ascii) (s : string) :
  (0 <= Str.rfind c s)%Z ->
  exists a b, s = a ++ String c b /\ occurs c b = false.
Proof.
  induction s as [|x s IH]; simpl; [lia | ].
  destruct (0 <=? Str.rfind c s)%Z eqn:E.
  - intros _. apply Z.leb_le in E. destruct (IH E) as (a & b & -> & Hb).
    exists (String x a), b. split; [reflexivity | exact Hb].
  - destruct (Ascii.eqb_spec x c) as [-> | Hne]; [ | lia].
    intros _. exists "", s. split; [reflexivity | ].
    apply Z.leb_gt in E.
    destruct (occurs c s) eqn:O; [ | reflexivity].
    exfalso. clear IH. revert E. induction s as [|y s IHs]; [discriminate | ].
    simpl in *. destruct (0 <=? Str.rfind c s)%Z eqn:E'.
    + apply Z.leb_le in E'. lia.
    + destruct (Ascii.eqb y c); [lia | ]. simpl in O. intros _.
      apply IHs; [exact O | ]. apply Z.leb_gt in E'. exact E'.
Qed.

Lemma rfind_occurs (c : ascii) (s : string) :
  occurs c s = true -> (0 <= Str.rfind c s)%Z.
Proof.
  induction s as [|x s IH]; simpl; [discriminate | ].
  intros H. destruct (0 <=? Str.rfind c s)%Z eqn:E.
  - apply Z.leb_le in E. lia.
  - destruct (Ascii.eqb x c); simpl in H; [lia | ].
    apply IH in H. apply Z.leb_gt in E. lia.
Qed.

(** *** The extension of a name *)

Lemma after_last_absent (c : ascii) (s : string) :
  occurs c s = false -> after_last c s = None.
Proof.
  induction s as [|x s IH]; simpl; [reflexivity | ].
  intros H. apply orb_false_iff in H as [Hx Hs].
  now rewrite (IH Hs), Hx.
Qed.

Lemma after_last_split (c : ascii) (a b : string) :
  occurs c b = false -> after_last c (a ++ String c b) = Some b.
Proof.
  intros Hb. induction a as [|x a IH]; simpl.
  - now rewrite (after_last_absent _ _ Hb), Ascii.eqb_refl.
  - now rewrite IH.
Qed.

Lemma length_zero (s : string) : String.length s = 0 -> s = "".
Proof. destruct s; [reflexivity | discriminate]. Qed.

Lemma extension_split (a b : string) :
  a <> "" -> b <> "" -> occurs "." b = false ->
  extension (a ++ String "." b) = b.
Proof.
  intros Ha Hb Hd. unfold extension. rewrite (after_last_split _ _ _ Hd).
  apply String.eqb_neq in Hb. rewrite Hb. simpl orb.
  rewrite length_append. simpl String.length.
  destruct (Nat.eqb_spec (String.length b + 1) (String.length a + S (String.length b)))
    as [E | _]; [ | reflexivity].
  exfalso. apply Ha, length_zero. lia.
Qed.

(** A name with an extension splits at its last dot. *)
Lemma extension_inv (n : string) :
  extension n <> "" ->
  exists a, n = a ++ String "." (extension n) /\ a <> "" /\
            occurs "." (extension n) = false.
Proof.
  unfold extension. destruct (occurs "." n) eqn:O.
  - destruct (rfind_found "." n (rfind_occurs _ _ O)) as (a & b & -> & Hb).
    rewrite (after_last_split _ _ _ Hb).
    destruct (String.eqb_spec b "") as [-> | Hne]; simpl orb; [congruence | ].
    rewrite length_append. simpl String.length.
    destruct (Nat.eqb_spec (String.length b + 1) (String.length a + S (String.length b)))
      as [E | E]; [congruence | ].
    intros _. exists a. repeat split; [ | exact Hb].
    intros ->. simpl in E. lia.
  - rewrite (after_last_absent _ _ O). congruence.
Qed.

(** [Path.suffix] is the dot and the extension of the name. *)
Lemma suffix_extension (p : Path) :
  PurePath.suffix p =
  if extension (PurePath.name p) =? "" then ""
  else String "." (extension (PurePath.name p)).
Proof.
  unfold PurePath.suffix. set (n := PurePath.name p). clearbody n.
  destruct (String.eqb_spec (extension n) "") as [E | E].
  - destruct (occurs "." n) eqn:O.
    + destruct (rfind_found "." n (rfind_occurs _ _ O)) as (a & b & -> & Hb).
      rewrite (rfind_last _ _ _ Hb). unfold Str.len.
      rewrite length_append. simpl String.length.
      destruct a as [|x a].
      * reflexivity.
      * destruct b as [|y b].
        -- repeat match goal with
                  | |- context [(?u <? ?v)%Z] => destruct (Z.ltb_spec u v)
                  end; simpl String.length in *; try reflexivity; lia.
        -- exfalso. rewrite extension_split in E; congruence.
    + now rewrite (rfind_absent _ _ O).
  - destruct (extension_inv n E) as (a & Hn & Ha & Hd).
    set (e := extension n) in *. clearbody e. subst n.
    rewrite (rfind_last _ _ _ Hd). unfold Str.len, Str.slice_from.
    rewrite length_append. simpl String.length.
    assert (0 < String.length a) by
      (destruct a; [congruence | simpl; lia]).
    assert (0 < String.length e) by
      (destruct e; [congruence | simpl; lia]).
    repeat match goal with
           | |- context [(?u <? ?v)%Z] => destruct (Z.ltb_spec u v)
           end; try lia.
    simpl andb. cbv iota. rewrite Nat2Z.id.
    replace (String.length a + S (String.length e) - String.length a)
      with (String.length (String "." e)) by (simpl; lia).
    apply substring_tail.
Qed.

Lemma stem_split (a b : string) :
  a <> "" -> b <> "" -> occurs "." b = false ->
  stem (a ++ String "." b) = a.
Proof.
  intros Ha Hb Hd. unfold stem. rewrite (extension_split _ _ Ha Hb Hd).
  apply String.eqb_neq in Hb. rewrite Hb.
  rewrite length_append. simpl String.length.
  replace (String.length a + S (String.length b) - (String.length b + 1))
    with (String.length a) by lia.
  apply substring_head.
Qed.

(** *** Case folding *)

Lemma lower_char_dot (c : ascii) :
  Ascii.eqb (Str.lower_char c) "." = Ascii.eqb c ".".
Proof. destruct c as [[] [] [] [] [] [] [] []]; reflexivity. Qed.

Lemma lower_char_underscore (c : ascii) :
  Ascii.eqb (Str.lower_char c) "_" = Ascii.eqb c "_".
Proof. destruct c as [[] [] [] [] [] [] [] []]; reflexivity. Qed.

Lemma occurs_dot_lower (s : string) : occurs "." (Str.lower s) = occurs "." s.
Proof.
  induction s as [|a s IH]; simpl; [reflexivity | ].
  now rewrite lower_char_dot, IH.
Qed.

Lemma occurs_underscore_lower (s : string) :
  occurs "_" (Str.lower s) = occurs "_" s.
Proof.
  induction s as [|a s IH]; simpl; [reflexivity | ].
  now rewrite lower_char_underscore, IH.
Qed.

Lemma lower_truthy (s : string) : Str.truthy (Str.lower s) = Str.truthy s.
Proof. destruct s; reflexivity. Qed.

Lemma lstrip_absent (c : ascii) (s : string) :
  occurs c s = false -> Str.lstrip c s = s.
Proof.
  destruct s as [|a s]; simpl; [reflexivity | ].
  intros H. apply orb_false_iff in H as [-> _]. reflexivity.
Qed.

(** The [ext] that [normalize_target_in_project] computes is the
    lowercased extension of the name. *)
Lemma ext_of_suffix (p : Path) :
  Str.lstrip "." (Str.lower (PurePath.suffix p)) =
  Str.lower (extension (PurePath.name p)).
Proof.
  rewrite suffix_extension.
  destruct (String.eqb_spec (extension (PurePath.name p)) "") as [-> | E].
  - reflexivity.
  - destruct (extension_inv _ E) as (a & _ & _ & Hd).
    simpl. apply lstrip_absent. now rewrite occurs_dot_lower.
Qed.

(** *** Joining *)

Lemma join_cons (sep x : string) (l : list string) :
  l <> [] -> Str.join sep (x :: l) = x ++ sep ++ Str.join sep l.
Proof. destruct l; [congruence | reflexivity]. Qed.

Lemma join_snoc_append (sep x y : string) (l : list string) :
  Str.join sep (l ++ [x ++ y]) = Str.join sep (l ++ [x]) ++ y.
Proof.
  induction l as [|a l IH]; [reflexivity | ].
  rewrite <- !app_comm_cons.
  rewrite !join_cons by (destruct l; discriminate).
  now rewrite IH, !append_assoc.
Qed.

Lemma last_app_nonempty (l r : list string) (d : string) :
  r <> [] -> last (l ++ r) d = last r d.
Proof.
  intros Hr. induction l as [|a l IH]; [reflexivity | ].
  simpl. destruct (l ++ r)%list eqn:E; [ | exact IH].
  apply app_eq_nil in E as [_ E]. congruence.
Qed.

Lemma last_nonempty (l : list string) : last l "" <> "" -> l <> [].
Proof. destruct l; [simpl; congruence | discriminate]. Qed.

(** *** pathlib *)

Lemma strip_prefix_app (pre l : list string) :
  PurePath.strip_prefix pre (pre ++ l) = Some l.
Proof.
  induction pre as [|a pre IH]; simpl; [reflexivity | ].
  now rewrite String.eqb_refl.
Qed.

Lemma relative_to_under (root : Path) (rel : list string) :
  PurePath.relative_to (under root rel) root = Ok (mkPath false rel).
Proof.
  unfold PurePath.relative_to, under. simpl.
  now rewrite eqb_reflx, strip_prefix_app.
Qed.

Lemma name_under (root : Path) (rel : list string) :
  rel <> [] -> PurePath.name (under root rel) = last rel "".
Proof. intros H. unfold PurePath.name, under. simpl. now apply last_app_nonempty. Qed.

(** [with_suffix("")] replaces the name by its stem. *)
Lemma with_suffix_empty (p : Path) :
  PurePath.name p <> "" ->
  PurePath.with_suffix p "" =
  Ok (mkPath (anchored p) (removelast (parts p) ++ [stem (PurePath.name p)])).
Proof.
  intros Hn. unfold PurePath.with_suffix. simpl.
  apply String.eqb_neq in Hn. unfold Str.truthy at 1. rewrite Hn. simpl.
  rewrite suffix_extension. unfold stem.
  destruct (String.eqb_spec (extension (PurePath.name p)) "") as [E | E].
  - simpl. now rewrite append_nil_r.
  - simpl. rewrite append_nil_r. unfold Str.slice_drop_last, Str.len.
    rewrite Nat2Z.id. simpl String.length.
    now replace (S (String.length (extension (PurePath.name p))))
      with (String.length (extension (PurePath.name p)) + 1) by lia.
Qed.

Lemma as_posix_relative (l : list string) :
  l <> [] -> PurePath.as_posix (mkPath false l) = Str.join "/" l.
Proof. destruct l; [congruence | reflexivity]. Qed.

(** Dropping the extension from the text of a path drops it from the
    name. *)
Lemma join_stem (rel : list string) :
  rel <> [] ->
  Str.join "/" (removelast rel ++ [stem (last rel "")]) =
  let path := Str.join "/" rel in
  let ext := extension (last rel "") in
  if ext =? "" then path
  else substring 0 (String.length path - (String.length ext + 1)) path.
Proof.
  intros Hrel. cbv zeta.
  pose proof (app_removelast_last "" Hrel) as Hsplit.
  set (dirs := removelast rel) in *. set (n := last rel "") in *.
  rewrite Hsplit. clearbody dirs n. clear Hsplit Hrel rel.
  destruct (String.eqb_spec (extension n) "") as [E | E].
  - unfold stem. now rewrite E.
  - destruct (extension_inv n E) as (a & Hn & Ha & Hd).
    set (e := extension n) in *. clearbody e. subst n.
    rewrite (stem_split _ _ Ha E Hd).
    change (a ++ String "." e) with (a ++ (String "." e)).
    rewrite join_snoc_append, length_append. simpl String.length.
    replace (String.length (Str.join "/" (dirs ++ [a])) + S (String.length e) -
             (String.length e + 1))
      with (String.length (Str.join "/" (dirs ++ [a]))) by lia.
    now rewrite substring_head.
Qed.

(** ** The target resolver *)

(** What [normalize_target_in_project] returns for a file below the
    root, in the terms of the code. *)
Lemma normalize_under (resolve : Path -> Path) (root : Path) (rel : list string) :
  last rel "" <> "" ->
  resolve root = root ->
  resolve (under root rel) = under root rel ->
  normalize_target_in_project resolve (under root rel) root =
  let base := Str.replace "/" "_" (Str.join "/" (removelast rel ++ [stem (last rel "")])) in
  let ext := Str.lower (extension (last rel "")) in
  Ok (if Str.truthy ext then base ++ "_" ++ ext else base).
Proof.
  intros Hn Hroot Hfile. pose proof (last_nonempty _ Hn) as Hrel.
  unfold normalize_target_in_project.
  rewrite Hroot, Hfile, relative_to_under.
  rewrite with_suffix_empty by exact Hn.
  rewrite ext_of_suffix, (name_under _ _ Hrel).
  cbn [anchored parts PurePath.name].
  rewrite as_posix_relative by (destruct (removelast rel); discriminate).
  reflexivity.
Qed.

Lemma lower_char_translate (c : ascii) :
  Str.lower_char c = translate UPPER_CASE LOWER_CASE c.
Proof. destruct c as [[] [] [] [] [] [] [] []]; reflexivity. Qed.

(** On the strings of the model [Str.lower] turns each of A-Z into its
    lower-case letter and leaves the rest. *)
Lemma lower_lowercased (s : string) : Str.lower s = lowercased s.
Proof.
  induction s as [|c s IH]; simpl; [reflexivity | ].
  now rewrite lower_char_translate, IH.
Qed.

(** C3. For a file inside the project root whose extension is ASCII
    text, [normalize_target_in_project] returns the path relative to the
    root with the extension dropped, each separator replaced by an
    underscore, followed by an underscore and the extension with its
    upper-case letters turned into lower case, the latter two left out when
    the file has no extension. *)
Theorem normalize_inside_root (resolve : Path -> Path) (root : Path) (rel : list string) :
  last rel "" <> "" ->
  resolve root = root ->
  resolve (under root rel) = under root rel ->
  is_ascii (extension (last rel "")) = true ->
  normalize_target_in_project resolve (under root rel) root = Ok (resolveTarget rel).
Proof.
  intros Hn Hroot Hfile _. pose proof (last_nonempty _ Hn) as Hrel.
  rewrite (normalize_under _ _ _ Hn Hroot Hfile). cbv zeta.
  rewrite (join_stem _ Hrel). cbv zeta. unfold resolveTarget.
  rewrite lower_truthy, lower_lowercased. unfold Str.truthy.
  destruct (extension (last rel "") =? ""); reflexivity.
Qed.

(** [src/foo.c] maps to [src_foo_c], and [src/Main.CPP] to
    [src_Main_cpp]: the extension is lowercased, the rest is not. *)
Lemma normalize_inside_root_witness :
  normalize_target_in_project (fun p => p)
    (under (abs ["proj"]) ["src"; "foo.c"]) (abs ["proj"]) = Ok "src_foo_c" /\
  normalize_target_in_project (fun p => p)
    (under (abs ["proj"]) ["src"; "Main.CPP"]) (abs ["proj"]) = Ok "src_Main_cpp".
Proof.
  exact (conj
           (normalize_inside_root (fun p => p) (abs ["proj"]) ["src"; "foo.c"]
              ltac:(discriminate) eq_refl eq_refl eq_refl)
           (normalize_inside_root (fun p => p) (abs ["proj"]) ["src"; "Main.CPP"]
              ltac:(discriminate) eq_refl eq_refl eq_refl)).
Defined.

(** *** Splitting and joining at a character that the pieces do not hold *)

Lemma replace_append (a b : ascii) (x y : string) :
  Str.replace a b (x ++ y) = Str.replace a b x ++ Str.replace a b y.
Proof. induction x as [|c x IH]; simpl; [reflexivity | now rewrite IH]. Qed.

Lemma replace_absent (a b : ascii) (x : string) :
  occurs a x = false -> Str.replace a b x = x.
Proof.
  induction x as [|c x IH]; simpl; [reflexivity | ].
  intros H. apply orb_false_iff in H as [-> H]. now rewrite IH.
Qed.

Lemma replace_join (a b : ascii) (l : list string) :
  Forall (fun x => occurs a x = false) l ->
  Str.replace a b (Str.join (String a "") l) = Str.join (String b "") l.
Proof.
  induction 1 as [|x l Hx Hl IH]; [reflexivity | ].
  destruct l as [|y l].
  - simpl. now apply replace_absent.
  - rewrite !join_cons by discriminate.
    rewrite !replace_append, IH, (replace_absent _ _ _ Hx).
    simpl. now rewrite Ascii.eqb_refl.
Qed.

Lemma join_snoc (sep x : string) (l : list string) :
  l <> [] -> Str.join sep (l ++ [x]) = Str.join sep l ++ sep ++ x.
Proof.
  induction l as [|a l IH]; [congruence | intros _].
  destruct l as [|b l]; [reflexivity | ].
  rewrite <- app_comm_cons.
  rewrite !join_cons by discriminate.
  rewrite IH by discriminate. now rewrite !append_assoc.
Qed.

Lemma split_absent (c : ascii) (s : string) :
  occurs c s = false -> Str.split c s = [s].
Proof.
  induction s as [|a s IH]; simpl; [reflexivity | ].
  intros H. apply orb_false_iff in H as [-> H]. now rewrite IH.
Qed.

Lemma split_at_first (c : ascii) (x r : string) :
  occurs c x = false -> Str.split c (x ++ String c r) = x :: Str.split c r.
Proof.
  induction x as [|a x IH]; simpl.
  - now rewrite Ascii.eqb_refl.
  - intros H. apply orb_false_iff in H as [-> H]. now rewrite IH.
Qed.

(** [split] undoes [join]. *)
Lemma split_join (c : ascii) (l : list string) :
  l <> [] ->
  Forall (fun x => occurs c x = false) l ->
  Str.split c (Str.join (String c "") l) = l.
Proof.
  intros Hl H. induction H as [|x l Hx H IH]; [congruence | ].
  destruct l as [|y l].
  - simpl. now apply split_absent.
  - rewrite join_cons by discriminate.
    change (String c "" ++ Str.join (String c "") (y :: l))
      with (String c (Str.join (String c "") (y :: l))).
    rewrite (split_at_first _ _ _ Hx), IH by discriminate. reflexivity.
Qed.

Lemma join_injective (c : ascii) (l1 l2 : list string) :
  l1 <> [] -> l2 <> [] ->
  Forall (fun x => occurs c x = false) l1 ->
  Forall (fun x => occurs c x = false) l2 ->
  Str.join (String c "") l1 = Str.join (String c "") l2 ->
  l1 = l2.
Proof.
  intros N1 N2 F1 F2 E.
  rewrite <- (split_join c l1 N1 F1), <- (split_join c l2 N2 F2).
  now rewrite E.
Qed.

Lemma name_split (n : string) :
  extension n <> "" -> n = stem n ++ String "." (extension n).
Proof.
  intros E. destruct (extension_inv n E) as (a & Hn & Ha & Hd).
  rewrite Hn at 2. now rewrite (stem_split _ _ Ha E Hd).
Qed.

Lemma occurs_stem (c : ascii) (n : string) :
  occurs c n = false -> occurs c (stem n) = false.
Proof.
  intros H. destruct (String.eqb_spec (extension n) "") as [E | E].
  - unfold stem. now rewrite E.
  - rewrite (name_split n E), occurs_append in H.
    now apply orb_false_iff in H as [H _].
Qed.

Lemma occurs_extension (c : ascii) (n : string) :
  occurs c n = false -> occurs c (extension n) = false.
Proof.
  intros H. destruct (String.eqb_spec (extension n) "") as [E | E].
  - now rewrite E.
  - rewrite (name_split n E), occurs_append in H.
    apply orb_false_iff in H as [_ H]. simpl in H.
    now apply orb_false_iff in H as [_ H].
Qed.

Lemma Forall_pieces (c : ascii) (rel : list string) :
  rel <> [] ->
  Forall (fun x => occurs c x = false) rel ->
  c <> "."%char ->
  (forall s, occurs c (Str.lower s) = occurs c s) ->
  Forall (fun x => occurs c x = false) (pieces rel).
Proof.
  intros Hrel F Hc Hlow. unfold pieces.
  rewrite (app_removelast_last "" Hrel) in F.
  apply Forall_app in F as [Fd Fn].
  apply Forall_app. split; [exact Fd | ].
  inversion Fn as [|n ? Hn _]; subst.
  constructor; [now apply occurs_stem | ].
  destruct (extension (last rel "") =? ""); constructor; [ | constructor].
  rewrite Hlow. now apply occurs_extension.
Qed.

(** For plain components the identifier is the pieces joined by the
    underscore. *)
Lemma normalize_plain (resolve : Path -> Path) (root : Path) (rel : list string) :
  last rel "" <> "" ->
  resolve root = root ->
  resolve (under root rel) = under root rel ->
  Forall (fun c => plain c = true) rel ->
  normalize_target_in_project resolve (under root rel) root =
  Ok (Str.join "_" (pieces rel)).
Proof.
  intros Hn Hroot Hfile Hplain. pose proof (last_nonempty _ Hn) as Hrel.
  rewrite (normalize_under _ _ _ Hn Hroot Hfile). cbv zeta. f_equal.
  assert (Fs : Forall (fun x => occurs "/" x = false)
                      (removelast rel ++ [stem (last rel "")])).
  { assert (F : Forall (fun x => occurs "/" x = false) rel).
    { eapply Forall_impl; [ | exact Hplain]. unfold plain. intros x Hx.
      apply andb_true_iff in Hx as [Hx _]. now apply negb_true_iff in Hx. }
    rewrite (app_removelast_last "" Hrel) in F.
    apply Forall_app in F as [Fd Fn]. apply Forall_app. split; [exact Fd | ].
    inversion Fn; subst. constructor; [now apply occurs_stem | constructor]. }
  rewrite (replace_join "/" "_" _ Fs). unfold pieces.
  rewrite lower_truthy. unfold Str.truthy.
  destruct (String.eqb_spec (extension (last rel "")) "") as [E | E]; simpl negb; cbv iota.
  - reflexivity.
  - change (removelast rel ++ [stem (last rel ""); Str.lower (extension (last rel ""))])%list
      with (removelast rel ++ ([stem (last rel "")] ++ [Str.lower (extension (last rel ""))]))%list.
    rewrite app_assoc.
    rewrite (join_snoc "_" _ (removelast rel ++ [stem (last rel "")]))
      by (intros HH; apply app_eq_nil in HH as [_ HH]; discriminate).
    reflexivity.
Qed.

(** The pieces determine the relative path when the extension is in
    lower case. *)
Lemma pieces_injective (rel1 rel2 : list string) :
  rel1 <> [] -> rel2 <> [] ->
  Str.lower (extension (last rel1 "")) = extension (last rel1 "") ->
  Str.lower (extension (last rel2 "")) = extension (last rel2 "") ->
  (extension (last rel1 "") = "" <-> extension (last rel2 "") = "") ->
  pieces rel1 = pieces rel2 -> rel1 = rel2.
Proof.
  intros N1 N2 L1 L2 Hsame. unfold pieces. rewrite L1, L2.
  destruct (String.eqb_spec (extension (last rel1 "")) "") as [E1 | E1];
    destruct (String.eqb_spec (extension (last rel2 "")) "") as [E2 | E2];
    try (exfalso; tauto); intros H;
    rewrite (app_removelast_last "" N1), (app_removelast_last "" N2).
  - unfold stem in H. rewrite E1, E2 in H. exact H.
  - change (removelast rel1 ++ [stem (last rel1 ""); extension (last rel1 "")])%list
      with (removelast rel1 ++ ([stem (last rel1 "")] ++ [extension (last rel1 "")]))%list in H.
    change (removelast rel2 ++ [stem (last rel2 ""); extension (last rel2 "")])%list
      with (removelast rel2 ++ ([stem (last rel2 "")] ++ [extension (last rel2 "")]))%list in H.
    rewrite !app_assoc in H.
    apply app_inj_tail in H as [H He]. apply app_inj_tail in H as [Hd Hs].
    rewrite (name_split _ E1), (name_split _ E2), Hd, Hs, He. reflexivity.
Qed.

Lemma plain_absent (c : ascii) (rel : list string) :
  c = "/"%char \/ c = "_"%char ->
  Forall (fun x => plain x = true) rel ->
  Forall (fun x => occurs c x = false) rel.
Proof.
  intros Hc F. eapply Forall_impl; [ | exact F]. unfold plain. intros x Hx.
  apply andb_true_iff in Hx as [H1 H2].
  apply negb_true_iff in H1, H2. destruct Hc; subst; assumption.
Qed.

(** C1, as the code has it. Among the files inside the project root whose
    path components hold no underscore, whose extension is ASCII text
    without upper-case letters, and which either all have an extension or
    all have none, two files with distinct relative paths get distinct
    target identifiers. *)
Theorem normalize_injective_on_plain
    (resolve : Path -> Path) (root : Path) (rel1 rel2 : list string) :
  last rel1 "" <> "" -> last rel2 "" <> "" ->
  resolve root = root ->
  resolve (under root rel1) = under root rel1 ->
  resolve (under root rel2) = under root rel2 ->
  Forall (fun c => plain c = true) rel1 ->
  Forall (fun c => plain c = true) rel2 ->
  is_ascii (extension (last rel1 "")) = true ->
  is_ascii (extension (last rel2 "")) = true ->
  lowercased (extension (last rel1 "")) = extension (last rel1 "") ->
  lowercased (extension (last rel2 "")) = extension (last rel2 "") ->
  (extension (last rel1 "") = "" <-> extension (last rel2 "") = "") ->
  rel1 <> rel2 ->
  normalize_target_in_project resolve (under root rel1) root <>
  normalize_target_in_project resolve (under root rel2) root.
Proof.
  intros Hn1 Hn2 Hroot Hf1 Hf2 P1 P2 _ _ L1 L2 Hsame Hneq.
  rewrite <- lower_lowercased in L1, L2.
  pose proof (last_nonempty _ Hn1) as N1.
  pose proof (last_nonempty _ Hn2) as N2.
  rewrite (normalize_plain _ _ _ Hn1 Hroot Hf1 P1).
  rewrite (normalize_plain _ _ _ Hn2 Hroot Hf2 P2).
  intros H. injection H as H. apply Hneq.
  apply (pieces_injective _ _ N1 N2 L1 L2 Hsame).
  apply (join_injective "_"); try exact H.
  - unfold pieces. intros E. apply app_eq_nil in E as [_ E]. discriminate.
  - unfold pieces. intros E. apply app_eq_nil in E as [_ E]. discriminate.
  - apply Forall_pieces; [exact N1 | | discriminate | apply occurs_underscore_lower].
    apply plain_absent; [now right | exact P1].
  - apply Forall_pieces; [exact N2 | | discriminate | apply occurs_underscore_lower].
    apply plain_absent; [now right | exact P2].
Qed.

(** [src/foo.c] and [src/bar.c] get distinct identifiers. *)
Lemma normalize_injective_on_plain_witness :
  normalize_target_in_project (fun p => p)
    (under (abs ["proj"]) ["src"; "foo.c"]) (abs ["proj"]) <>
  normalize_target_in_project (fun p => p)
    (under (abs ["proj"]) ["src"; "bar.c"]) (abs ["proj"]).
Proof.
  apply (normalize_injective_on_plain (fun p => p) (abs ["proj"])
           ["src"; "foo.c"] ["src"; "bar.c"]);
    try reflexivity; try discriminate.
  - repeat constructor.
  - repeat constructor.
Defined.

(** C1, as stated, fails. Three pairs of files inside the root with
    distinct (relative path, extension) pairs and one identifier: a
    directory separator against an underscore in a name, an upper-case
    against a lower-case extension, and a name with an extension against a
    directory and a name without one. *)
Lemma normalize_not_injective :
  let target rel :=
    normalize_target_in_project (fun p => p) (under (abs ["proj"]) rel) (abs ["proj"]) in
  let pair rel := (rel, extension (last rel "")) in
  (pair ["src"; "foo.c"] <> pair ["src_foo.c"] /\
   target ["src"; "foo.c"] = target ["src_foo.c"]) /\
  (pair ["foo.C"] <> pair ["foo.c"] /\
   target ["foo.C"] = target ["foo.c"]) /\
  (pair ["a"; "b"] <> pair ["a.b"] /\
   target ["a"; "b"] = target ["a.b"]).
Proof.
  cbv zeta. repeat split; try discriminate; reflexivity.
Qed.

(** C2. A file outside the root gets the identifier of the file of the
    same name that sits at the top of the project: [/tmp/foo.c] and
    [/proj/foo.c] both map to [foo_c] for the root [/proj]. *)
Theorem normalize_outside_collides :
  PurePath.relative_to (abs ["tmp"; "foo.c"]) (abs ["proj"]) = Raise ValueError /\
  normalize_target_in_project (fun p => p) (abs ["tmp"; "foo.c"]) (abs ["proj"])
  = Ok "foo_c" /\
  normalize_target_in_project (fun p => p) (abs ["proj"; "foo.c"]) (abs ["proj"])
  = Ok "foo_c".
Proof. repeat split; reflexivity. Qed.

(** ** Generators *)

Lemma prefix_spec (a s : string) :
  prefix a s = true <-> exists t, s = a ++ t.
Proof.
  revert s. induction a as [|x a IH]; intros s; simpl.
  - split; [intros _; now exists s | intros _; now destruct s].
  - destruct s as [|y s].
    + split; [discriminate | intros [t Ht]; discriminate].
    + simpl. destruct (ascii_dec x y) as [-> | Hne].
      * rewrite IH. split; intros [t Ht]; exists t; [now rewrite Ht | now injection Ht].
      * split; [discriminate | ]. intros [t Ht]. injection Ht as Hxy _. congruence.
Qed.

(** [sub in s] decides whether [s] holds [sub]. *)
Lemma contains_spec (sub s : string) :
  Str.contains sub s = true <-> holds sub s.
Proof.
  unfold holds. induction s as [|y s IH]; cbn [Str.contains].
  - rewrite orb_false_r, prefix_spec. split.
    + intros [t Ht]. exists "", t. exact Ht.
    + intros (b & a & H). destruct b; [now exists a | discriminate].
  - rewrite orb_true_iff, prefix_spec, IH. split.
    + intros [[t Ht] | (b & a & H)].
      * exists "", t. exact Ht.
      * exists (String y b), a. simpl. now rewrite H.
    + intros (b & a & H). destruct b as [|x b].
      * left. now exists a.
      * right. injection H as _ H. now exists b, a.
Qed.

Lemma is_multi_config_spec (generator : string) :
  is_multi_config generator = true <-> names_multi_config generator.
Proof.
  unfold is_multi_config, names_multi_config, MULTI_CONFIG_MARKERS.
  rewrite orb_true_iff, !contains_spec. split.
  - intros [H | H]; eexists; (split; [ | exact H]); simpl; auto.
  - intros (marker & [<- | [<- | []]] & H); auto.
Qed.

(** [run_logged] starts its command, and nothing else. *)
Lemma run_logged_spawned (w : World) (line : string) (cmd : list string) (m : Machine) :
  spawned (fst (run_logged w line cmd m)) = (spawned m ++ [cmd])%list.
Proof.
  unfold run_logged, bind, try_finally, subprocess_run, append_log, write_log, ret.
  simpl. destruct (run w cmd) as [p | e]; simpl.
  - destruct (returncode p =? 0)%Z; reflexivity.
  - reflexivity.
Qed.

(** C5. A generator is taken for a multi-configuration one exactly when
    its lowercased name contains one of the markers "multi-config" and
    "visual studio". For such a generator the configure command carries no
    build-type flag and the build command carries [--config] and the
    configuration; for any other generator the configure command carries
    [-DCMAKE_BUILD_TYPE=] and the configuration, and the build command
    carries no configuration. These are the commands the two steps start. *)
Theorem multi_config_commands
    (w : World) (m : Machine)
    (generator target build_config : string) (cmake_args build_args : list string) :
  (is_multi_config generator = true <-> names_multi_config generator) /\
  configure_build_cmd generator build_config cmake_args =
    (["cmake"; "-S"; "."; "-B"; "build"; "-G"; generator; "-Wno-dev"] ++
     (if is_multi_config generator then []
      else [("-DCMAKE_BUILD_TYPE=" ++ build_config)%string]) ++
     cmake_args)%list /\
  build_target_cmd target generator build_config build_args =
    (["cmake"; "--build"; "build"; "--target"; target] ++
     (if is_multi_config generator then ["--config"; build_config] else []) ++
     build_args)%list /\
  spawned (fst (configure_build w generator build_config cmake_args m)) =
    (spawned m ++ [configure_build_cmd generator build_config cmake_args])%list /\
  spawned (fst (build_target w target generator build_config build_args m)) =
    (spawned m ++ [build_target_cmd target generator build_config build_args])%list.
Proof.
  split; [apply is_multi_config_spec | ].
  split; [ | split; [ | split; apply run_logged_spawned]].
  - unfold configure_build_cmd.
    destruct (is_multi_config generator), cmake_args; reflexivity.
  - unfold build_target_cmd.
    destruct (is_multi_config generator), build_args; reflexivity.
Qed.

(** ** Locating the binary *)

Lemma prefix_false (a s : string) :
  (forall t, s <> a ++ t) -> prefix a s = false.
Proof.
  intros H. destruct (prefix a s) eqn:E; [ | reflexivity].
  apply prefix_spec in E as [t Ht]. now destruct (H t).
Qed.

Lemma of_str_single_name (s : string) :
  single_name s = true -> PurePath.of_str s = mkPath false [s].
Proof.
  unfold single_name, PurePath.of_str. intros H.
  apply andb_true_iff in H as [Hsep Hcomp]. apply negb_true_iff in Hsep.
  rewrite (split_absent _ _ Hsep). simpl filter. rewrite Hcomp. f_equal.
  apply prefix_false. intros t ->. discriminate.
Qed.

Lemma prefix_sep_append (t s : string) :
  prefix "/" t = false -> prefix "/" s = false -> prefix "/" (t ++ s) = false.
Proof.
  intros Ht Hs. destruct t as [|a t]; [exact Hs | ].
  apply prefix_false. intros r H. injection H as -> _.
  assert (E : prefix "/" (String "/" t) = true) by (apply prefix_spec; now exists t).
  congruence.
Qed.

(** C10. For a multi-configuration generator and a [--config] value other
    than the default, the build step is told the [--config] value while
    [exe_path] returns the path below the directory of the default
    configuration; when both are single names this is not the path below
    the directory of the configuration that was built. *)
Theorem exe_path_ignores_config
    (w : World) (target generator cfg : string) (build_args : list string) :
  is_multi_config generator = true ->
  cfg <> "" ->
  cfg <> DEFAULT_CONFIG w ->
  let suffix := if os_name w =? "nt" then ".exe" else "" in
  build_target_cmd target generator (or_else (Some cfg) (DEFAULT_CONFIG w)) build_args =
    (["cmake"; "--build"; "build"; "--target"; target; "--config"; cfg] ++ build_args)%list /\
  exe_path w target generator =
    PurePath.of_str "build" // PurePath.of_str (DEFAULT_CONFIG w)
      // PurePath.of_str (target ++ suffix) /\
  (single_name cfg = true -> single_name (DEFAULT_CONFIG w) = true ->
   prefix "/" target = false ->
   exe_path w target generator <>
     PurePath.of_str "build" // PurePath.of_str cfg
       // PurePath.of_str (target ++ suffix)).
Proof.
  intros Hmulti Hcfg Hneq suffix.
  assert (Hexe : exe_path w target generator =
                 PurePath.of_str "build" // PurePath.of_str (DEFAULT_CONFIG w)
                   // PurePath.of_str (target ++ suffix)).
  { unfold exe_path. now rewrite Hmulti. }
  split; [ | split; [exact Hexe | ]].
  - unfold build_target_cmd, or_else, Str.truthy. rewrite Hmulti.
    apply String.eqb_neq in Hcfg. rewrite Hcfg. simpl negb. cbv iota.
    destruct build_args; reflexivity.
  - intros Scfg Sdef Htarget. rewrite Hexe.
    rewrite (of_str_single_name _ Scfg), (of_str_single_name _ Sdef).
    assert (Hrel : anchored (PurePath.of_str (target ++ suffix)) = false).
    { unfold PurePath.of_str. simpl anchored. apply prefix_sep_append; [exact Htarget | ].
      subst suffix. destruct (os_name w =? "nt"); reflexivity. }
    set (t := PurePath.of_str (target ++ suffix)) in *.
    unfold PurePath.truediv. rewrite Hrel. simpl. intros H. injection H as H.
    congruence.
Qed.

(** ** The environment prober *)

Lemma find_first_such (f : string -> bool) (P : string -> Prop) (l : list string) :
  (forall x, f x = true <-> P x) -> first_such P l (find f l).
Proof.
  intros Hf. induction l as [|a l IH]; simpl.
  - constructor.
  - destruct (f a) eqn:E.
    + exists [], l. repeat split; [now apply Hf | constructor].
    + assert (Ha : ~ P a) by (rewrite <- Hf; congruence).
      destruct (find f l) as [c | ]; simpl in *.
      * destruct IH as (before & after & -> & Hc & Hb).
        exists (a :: before), after. repeat split; [exact Hc | now constructor].
      * now constructor.
Qed.

Lemma choose_compiler_find (w : World) (preferred : list string) :
  choose_compiler w preferred = find (fun c => opt_truthy (which w c)) preferred.
Proof.
  induction preferred as [|c l IH]; simpl; [reflexivity | ].
  destruct (which w c) as [found | ]; simpl; [ | exact IH].
  destruct (Str.truthy found); [reflexivity | exact IH].
Qed.

Lemma opt_truthy_which (w : World) (c : string) :
  opt_truthy (which w c) = true <-> on_search_path w c.
Proof.
  unfold on_search_path, opt_truthy, Str.truthy.
  destruct (which w c) as [found | ].
  - rewrite negb_true_iff, String.eqb_neq. split.
    + intros H. now exists found.
    + intros (path & [= ->] & H). exact H.
  - split; [discriminate | intros (path & H & _); discriminate].
Qed.

(** C9. [choose_compiler] returns the first entry of the preference list
    that resolves to an executable on the search path, and none when no
    entry does. *)
Theorem choose_compiler_first_found (w : World) (preferred : list string) :
  first_such (on_search_path w) preferred (choose_compiler w preferred).
Proof.
  rewrite choose_compiler_find. apply find_first_such.
  intros x. apply opt_truthy_which.
Qed.

Lemma existsb_eq_str (c : string) (names : list string) :
  existsb (Json.eq_str c) (map JStr names) = true <-> In c names.
Proof.
  rewrite existsb_exists. split.
  - intros (v & Hv & E). apply in_map_iff in Hv as (n & <- & Hn).
    simpl in E. apply String.eqb_eq in E. now subst.
  - intros H. exists (JStr c). split; [now apply in_map | apply String.eqb_refl].
Qed.

Lemma get_member (members : list (string * json)) (key : string) (v default : json) :
  Json.lookup key members = Some v ->
  Json.get (JObj members) key default = Ok v.
Proof. intros H. unfold Json.get. now rewrite H. Qed.

Lemma for_each_describes (gens : list json) (names : list string) :
  Forall2 describes gens names ->
  for_each
    (fun g =>
       match Json.get g "name" JNull with
       | Raise e => Raise e
       | Ok n => if Json.hashable n then Ok n else Raise TypeError
       end) gens = Ok (map JStr names).
Proof.
  induction 1 as [|g n gens names (members & -> & Hn) _ IH]; [reflexivity | ].
  simpl. rewrite Hn. simpl. now rewrite IH.
Qed.

(** What [read_capabilities] returns, the machine left aside. *)
Lemma read_capabilities_result (w : World) (m : Machine) :
  snd (read_capabilities w m) =
  let recover (r : Result json) :=
    match r with
    | Raise e => if is_probe_error e then Ok (JObj []) else Raise e
    | Ok data => Ok data
    end in
  match run w CAPABILITIES with
  | Raise e => recover (Raise e)
  | Ok p =>
      if (returncode p =? 0)%Z then recover (json_loads w (stdout p))
      else Ok (JObj [])
  end.
Proof.
  unfold read_capabilities, try_except, bind, subprocess_run, lift, ret.
  fold CAPABILITIES. simpl.
  destruct (run w CAPABILITIES) as [p | e]; simpl.
  - destruct (returncode p =? 0)%Z; simpl; [ | reflexivity].
    destruct (json_loads w (stdout p)) as [j | e]; [reflexivity | ].
    destruct (is_probe_error e); reflexivity.
  - destruct (is_probe_error e); reflexivity.
Qed.

Lemma choose_generator_result (w : World) (preferred : list string) (m : Machine) :
  snd (choose_generator w preferred m) =
  match snd (read_capabilities w m) with
  | Raise e => Raise e
  | Ok data =>
      match generator_name_set data with
      | Raise e => Raise e
      | Ok available =>
          Ok (find (fun c => existsb (Json.eq_str c) available) preferred)
      end
  end.
Proof.
  unfold choose_generator, bind, lift, ret.
  destruct (read_capabilities w m) as [m' [data | e]]; simpl; [ | reflexivity].
  destruct (generator_name_set data); reflexivity.
Qed.

(** Whenever the build tool reports a generator set, [choose_generator]
    returns, without raising, the first entry of the preference list that
    is in the set, and none when no entry is in it; the set is empty when
    the tool is absent, exits non-zero or prints what cannot be decoded. *)
Theorem choose_generator_first_reported
    (w : World) (names preferred : list string) (m : Machine) :
  reports w names ->
  exists found,
    snd (choose_generator w preferred m) = Ok found /\
    first_such (fun c => In c names) preferred found.
Proof.
  intros H.
  exists (find (fun c => existsb (Json.eq_str c) (map JStr names)) preferred).
  split; [ | apply find_first_such; intros x; apply existsb_eq_str].
  rewrite choose_generator_result, read_capabilities_result.
  destruct H as [E | p E Hc | p E Hc Hj | p members E Hc Hj Hg
                 | p members gens names E Hc Hj Hg Hd];
    rewrite E; try reflexivity.
  - apply Z.eqb_neq in Hc. now rewrite Hc.
  - apply Z.eqb_eq in Hc. now rewrite Hc, Hj.
  - apply Z.eqb_eq in Hc. rewrite Hc, Hj.
    unfold generator_name_set, Json.get. now rewrite Hg.
  - apply Z.eqb_eq in Hc. rewrite Hc, Hj.
    unfold generator_name_set. rewrite (get_member _ _ _ _ Hg).
    simpl Json.iter. cbv iota. now rewrite (for_each_describes _ _ Hd).
Qed.

Example sample_project_build :
  let r := main (sample_world true 0 0) (command_line "src/foo.c" (Some "Release")) boot in
  snd r = Ok tt /\
  spawned (fst r) =
    [ ["cmake"; "-E"; "capabilities"];
      ["cmake"; "-S"; "."; "-B"; "build"; "-G"; "Ninja Multi-Config"; "-Wno-dev"];
      ["cmake"; "--build"; "build"; "--target"; "src_foo_c"; "--config"; "Release"];
      ["build/Debug/src_foo_c"] ].
Proof. vm_compute. split; reflexivity. Qed.

Example sample_direct_compile :
  let r := main (sample_world false 0 0) (command_line "src/foo.c" None) boot in
  snd r = Ok tt /\
  spawned (fst r) =
    [ ["cc"; "src/foo.c"; "-std=c17"; "-O0"; "-g"; "-o"; "/tmp/c-run-0001/a.out"];
      ["/tmp/c-run-0001/a.out"] ] /\
  tmpdirs (fst r) = [].
Proof. vm_compute. repeat split; reflexivity. Qed.

(** ** Reasoning about [Py] computations *)

Lemma bind_ok {A B : Type} (c : Py A) (k : A -> Py B) (m m' : Machine) (b : B) :
  bind c k m = (m', Ok b) ->
  exists m0 a, c m = (m0, Ok a) /\ k a m0 = (m', Ok b).
Proof.
  unfold bind. destruct (c m) as [m0 [a | e]]; intros H.
  - now exists m0, a.
  - discriminate.
Qed.

Create HintDb py discriminated.

Section Keeps.

Context {X : Type} (f : Machine -> X).

Lemma keeps_ret {A : Type} (a : A) : keeps f (ret a).
Proof. intros m. reflexivity. Qed.

Lemma keeps_lift {A : Type} (r : Result A) : keeps f (lift r).
Proof. intros m. reflexivity. Qed.

Lemma keeps_raise {A : Type} (e : exn) : keeps f (@raise A e).
Proof. intros m. reflexivity. Qed.

Lemma keeps_bind {A B : Type} (c : Py A) (k : A -> Py B) :
  keeps f c -> (forall a, keeps f (k a)) -> keeps f (bind c k).
Proof.
  intros Hc Hk m. unfold bind. specialize (Hc m).
  destruct (c m) as [m0 [a | e]]; simpl in *; [ | exact Hc].
  now rewrite Hk.
Qed.

Lemma keeps_try_except {A : Type}
    (body : Py A) (handles : exn -> bool) (handler : exn -> Py A) :
  keeps f body -> (forall e, keeps f (handler e)) ->
  keeps f (try_except body handles handler).
Proof.
  intros Hb Hh m. unfold try_except. specialize (Hb m).
  destruct (body m) as [m0 [a | e]]; simpl in *; [exact Hb | ].
  destruct (handles e); [ | exact Hb]. now rewrite Hh.
Qed.

Lemma keeps_try_finally {A : Type} (body : Py A) (final : Py unit) :
  keeps f body -> keeps f final -> keeps f (try_finally body final).
Proof.
  intros Hb Hf m. unfold try_finally. specialize (Hb m).
  destruct (body m) as [m0 r]. specialize (Hf m0).
  destruct (final m0) as [m1 [[] | e]]; simpl in *; congruence.
Qed.

Lemma keeps_when (b : bool) (c : Py unit) : keeps f c -> keeps f (when b c).
Proof. intros H. destruct b; [exact H | apply keeps_ret]. Qed.

Lemma keeps_if {A : Type} (b : bool) (c1 c2 : Py A) :
  keeps f c1 -> keeps f c2 -> keeps f (if b then c1 else c2).
Proof. now destruct b. Qed.

Lemma keeps_or_maybe (a : option string) (b : Py (option string)) :
  keeps f b -> keeps f (or_maybe a b).
Proof.
  intros H. unfold or_maybe. destruct a as [s | ]; [ | exact H].
  destruct (Str.truthy s); [apply keeps_ret | exact H].
Qed.

End Keeps.

#[export] Hint Resolve keeps_ret keeps_lift keeps_raise keeps_bind
  keeps_try_except keeps_try_finally keeps_when keeps_if keeps_or_maybe : py.

(** *** What the primitive steps leave alone *)

Lemma print_keeps_tmpdirs (s : string) : keeps tmpdirs (print s).
Proof. intros m. reflexivity. Qed.

Lemma write_log_keeps_printed (s : string) : keeps printed (write_log s).
Proof. intros m. reflexivity. Qed.

Lemma write_log_keeps_tmpdirs (s : string) : keeps tmpdirs (write_log s).
Proof. intros m. reflexivity. Qed.

Lemma append_log_keeps_printed (s : string) : keeps printed (append_log s).
Proof. intros m. reflexivity. Qed.

Lemma append_log_keeps_tmpdirs (s : string) : keeps tmpdirs (append_log s).
Proof. intros m. reflexivity. Qed.

Lemma subprocess_run_keeps_printed (w : World) (cmd : list string) :
  keeps printed (subprocess_run w cmd).
Proof. intros m. reflexivity. Qed.

Lemma subprocess_run_keeps_tmpdirs (w : World) (cmd : list string) :
  keeps tmpdirs (subprocess_run w cmd).
Proof. intros m. reflexivity. Qed.

#[export] Hint Resolve print_keeps_tmpdirs write_log_keeps_printed
  write_log_keeps_tmpdirs append_log_keeps_printed append_log_keeps_tmpdirs
  subprocess_run_keeps_printed subprocess_run_keeps_tmpdirs : py.

Lemma run_logged_keeps_printed (w : World) (line : string) (cmd : list string) :
  keeps printed (run_logged w line cmd).
Proof.
  unfold run_logged. apply keeps_bind; [auto with py | intros _].
  apply keeps_bind; [ | auto with py].
  apply keeps_try_finally; [ | auto with py].
  intros m. simpl. destruct (run w cmd); reflexivity.
Qed.

Lemma run_logged_keeps_tmpdirs (w : World) (line : string) (cmd : list string) :
  keeps tmpdirs (run_logged w line cmd).
Proof.
  unfold run_logged. apply keeps_bind; [auto with py | intros _].
  apply keeps_bind; [ | auto with py].
  apply keeps_try_finally; [ | auto with py].
  intros m. simpl. destruct (run w cmd); reflexivity.
Qed.

#[export] Hint Resolve run_logged_keeps_printed run_logged_keeps_tmpdirs : py.

Lemma read_capabilities_keeps_printed (w : World) :
  keeps printed (read_capabilities w).
Proof. unfold read_capabilities. auto 6 with py. Qed.

Lemma read_capabilities_keeps_tmpdirs (w : World) :
  keeps tmpdirs (read_capabilities w).
Proof. unfold read_capabilities. auto 6 with py. Qed.

#[export] Hint Resolve read_capabilities_keeps_printed
  read_capabilities_keeps_tmpdirs : py.

Lemma choose_generator_keeps_printed (w : World) (preferred : list string) :
  keeps printed (choose_generator w preferred).
Proof. unfold choose_generator. auto 6 with py. Qed.

Lemma choose_generator_keeps_tmpdirs (w : World) (preferred : list string) :
  keeps tmpdirs (choose_generator w preferred).
Proof. unfold choose_generator. auto 6 with py. Qed.

#[export] Hint Resolve choose_generator_keeps_printed
  choose_generator_keeps_tmpdirs : py.

Lemma direct_compile_keeps_printed
    (w : World) (file_path compiler : string) (is_c : bool) :
  keeps printed (direct_compile w file_path compiler is_c).
Proof.
  unfold direct_compile. apply keeps_bind; [intros m; reflexivity | intros _].
  auto with py.
Qed.

#[export] Hint Resolve direct_compile_keeps_printed : py.

Lemma keeps_run {X A : Type} (f : Machine -> X) (c : Py A)
    (m m' : Machine) (r : Result A) :
  keeps f c -> c m = (m', r) -> f m' = f m.
Proof. intros H E. specialize (H m). now rewrite E in H. Qed.

Lemma keeps_silent {A : Type} (c : Py A) : keeps printed c -> silent c.
Proof. intros H m m' a E. exact (keeps_run _ _ _ _ _ H E). Qed.

Lemma exits_silent {A : Type} (c : Py A) : exits c -> silent c.
Proof. intros H m m' a E. now destruct (H m m' a). Qed.

Lemma exits_bind {A B : Type} (c : Py A) (k : A -> Py B) :
  (forall a, exits (k a)) -> exits (bind c k).
Proof.
  intros Hk m m' b E. apply bind_ok in E as (m0 & a & _ & E).
  now destruct (Hk a m0 m' b).
Qed.

Lemma exits_raise {A : Type} (e : exn) : exits (@raise A e).
Proof. intros m m' a. unfold raise. discriminate. Qed.

Lemma exits_fail {A : Type} (message : string) (code : Z) :
  exits (@fail A message code).
Proof. apply exits_bind. intros _. apply exits_raise. Qed.

Lemma exits_fail_with_log {A : Type} (w : World) (message : string) (code : Z) :
  exits (@fail_with_log A w message code).
Proof.
  unfold fail_with_log. repeat (apply exits_bind; intros _). apply exits_raise.
Qed.

Lemma exits_list_generators {A : Type} (w : World) :
  exits (@list_generators_and_exit A w).
Proof.
  unfold list_generators_and_exit. repeat (apply exits_bind; intros ?).
  apply exits_raise.
Qed.

Lemma exits_print_binary {A : Type} (w : World) (parsed : Parsed) :
  exits (@print_binary_and_exit A w parsed).
Proof.
  unfold print_binary_and_exit. apply exits_bind. intros _. apply exits_raise.
Qed.

Lemma silent_bind {A B : Type} (c : Py A) (k : A -> Py B) :
  silent c -> (forall a, silent (k a)) -> silent (bind c k).
Proof.
  intros Hc Hk m m' b E. apply bind_ok in E as (m0 & a & E1 & E2).
  rewrite (Hk _ _ _ _ E2). exact (Hc _ _ _ E1).
Qed.

(** A handler may print, as long as the body does not. *)
Lemma silent_try_except {A : Type}
    (body : Py A) (handles : exn -> bool) (handler : exn -> Py A) :
  keeps printed body -> (forall e, silent (handler e)) ->
  silent (try_except body handles handler).
Proof.
  intros Hb Hh m m' a. unfold try_except.
  destruct (body m) as [m0 [a0 | e]] eqn:E.
  - intros [= <- <-]. exact (keeps_run _ _ _ _ _ Hb E).
  - destruct (handles e); [ | discriminate].
    intros E'. rewrite (Hh e _ _ _ E'). exact (keeps_run _ _ _ _ _ Hb E).
Qed.

Lemma silent_if {A : Type} (b : bool) (c1 c2 : Py A) :
  silent c1 -> silent c2 -> silent (if b then c1 else c2).
Proof. now destruct b. Qed.

#[export] Hint Resolve keeps_silent exits_silent exits_fail exits_fail_with_log
  exits_raise silent_bind silent_try_except silent_if : py.

(** A project build that returns has printed nothing. *)
Lemma project_build_silent
    (w : World) (parsed : Parsed) (file_abs project_root : Path) (build_config : string) :
  silent (project_build w parsed file_abs project_root build_config).
Proof.
  unfold project_build, configure_build, build_target.
  apply silent_bind; [auto with py | intros target].
  apply silent_bind; [auto 6 with py | intros g].
  apply silent_bind; [auto 6 with py | intros g'].
  apply silent_bind; [ | intros _].
  - apply silent_try_except; [auto with py | ].
    intros [ | | | | | | code | code]; auto with py.
  - apply silent_bind; [ | auto with py].
    unfold when. auto with py.
Qed.

(** A direct compilation that returns has printed its first message, and
    nothing else. *)
Lemma direct_compilation_printed
    (w : World) (parsed : Parsed) (is_c : bool) (message : string)
    (m m' : Machine) (built : Path * option Path) :
  direct_compilation w parsed is_c message m = (m', Ok built) ->
  printed m' = (printed m ++ [message])%list.
Proof.
  unfold direct_compilation. intros H.
  apply bind_ok in H as (m0 & [] & [= <-] & H).
  assert (S : silent
    (compiler <-
       (if negb (opt_truthy (choose_compiler w
              (if is_c then PREFERRED_COMPILERS_C else PREFERRED_COMPILERS_CXX)))
        then fail ("No compiler found. Looked for: " ++
                   Str.join ", " (if is_c then PREFERRED_COMPILERS_C
                                  else PREFERRED_COMPILERS_CXX)) 1
        else ret (or_else (choose_compiler w
              (if is_c then PREFERRED_COMPILERS_C else PREFERRED_COMPILERS_CXX)) "")) ;;
     try_except
       (binary <- direct_compile w (file parsed) compiler is_c ;;
        ret (binary, Some (PurePath.parent binary)))
       is_CalledProcessError
       (fun err =>
          match err with
          | CalledProcessError code =>
              fail_with_log w
                ("Compilation failed with exit code " ++ Str.of_int code ++
                 ". Logs at " ++ PurePath.as_posix LOG_FILE ++ ".") code
          | _ => raise err
          end))).
  { apply silent_bind; [auto with py | intros compiler].
    apply silent_try_except; [auto with py | ].
    intros [ | | | | | | code | code]; auto with py. }
  exact (S _ _ _ H).
Qed.

(** ** The orchestration *)

Lemma strip_prefix_some (pre l rest : list string) :
  PurePath.strip_prefix pre l = Some rest -> l = (pre ++ rest)%list.
Proof.
  revert l. induction pre as [|a pre IH]; intros l; simpl.
  - now intros [= ->].
  - destruct l as [|b l]; [discriminate | ].
    destruct (String.eqb_spec a b) as [-> | _]; [ | discriminate].
    intros H. now rewrite (IH _ H).
Qed.

Lemma relative_to_inside (root file : Path) :
  inside root file ->
  PurePath.relative_to file root = Ok (mkPath false (skipn (length (parts root)) (parts file))).
Proof.
  intros [rel ->]. rewrite relative_to_under. unfold under. simpl. f_equal. f_equal.
  induction (parts root); simpl; [reflexivity | assumption].
Qed.

Lemma relative_to_outside (root file : Path) :
  ~ inside root file -> PurePath.relative_to file root = Raise ValueError.
Proof.
  intros H. unfold PurePath.relative_to.
  destruct (Bool.eqb (anchored file) (anchored root)) eqn:Ea; [ | reflexivity].
  destruct (PurePath.strip_prefix (parts root) (parts file)) as [rest | ] eqn:Es;
    [ | reflexivity].
  exfalso. apply H. exists rest. apply eqb_prop in Ea.
  apply strip_prefix_some in Es. destruct file as [fa fp]. unfold under.
  simpl in *. now subst.
Qed.

(** The part of [main_build] that comes before the choice of strategy does
    nothing but empty the log, when neither early exit is asked for. *)
Lemma main_build_select (w : World) (parsed : Parsed) (m : Machine) :
  list_generators parsed = false ->
  print_binary parsed = false ->
  let project_root := resolve w (cwd w) in
  let file_abs := resolve w (PurePath.of_str (file parsed)) in
  let is_c := Str.lower (PurePath.suffix (PurePath.of_str (file parsed))) =? ".c" in
  main_build w parsed m =
  (write_log "" ;;
   match which w "cmake" with
   | None =>
       direct_compilation w parsed is_c
         NO_CMAKE_MESSAGE
   | Some _ =>
       match PurePath.relative_to file_abs project_root with
       | Ok _ =>
           project_build w parsed file_abs project_root
             (or_else (config parsed) (DEFAULT_CONFIG w))
       | Raise _ =>
           direct_compilation w parsed is_c
             OUTSIDE_MESSAGE
       end
   end) m.
Proof.
  intros Hl Hp. cbv zeta. unfold main_build. rewrite Hl, Hp.
  unfold bind, write_log, try_except, lift, when, ret. simpl.
  unfold PurePath.relative_to.
  destruct (Bool.eqb _ _); [ | reflexivity].
  destruct (PurePath.strip_prefix _ _); reflexivity.
Qed.

(** When [main_build] returns, at most one line has been printed. *)
Lemma main_build_printed (w : World) (parsed : Parsed) (m m' : Machine)
    (built : Path * option Path) :
  main_build w parsed m = (m', Ok built) ->
  printed m' = printed m \/
  printed m' = (printed m ++ [NO_CMAKE_MESSAGE])%list \/
  printed m' = (printed m ++ [OUTSIDE_MESSAGE])%list.
Proof.
  destruct (list_generators parsed) eqn:Hl.
  { unfold main_build. rewrite Hl. intros H.
    apply bind_ok in H as (m0 & [] & _ & H).
    apply bind_ok in H as (m1 & a & _ & H).
    apply bind_ok in H as (m2 & [] & H & _).
    now destruct (exits_list_generators w _ _ _ H). }
  destruct (print_binary parsed) eqn:Hp.
  { unfold main_build. rewrite Hp. intros H.
    apply bind_ok in H as (m0 & [] & _ & H).
    apply bind_ok in H as (m1 & a & _ & H).
    apply bind_ok in H as (m2 & [] & _ & H).
    apply bind_ok in H as (m3 & [] & H & _).
    now destruct (exits_print_binary w parsed _ _ _ H). }
  rewrite (main_build_select w parsed m Hl Hp). cbv zeta. intros H.
  apply bind_ok in H as (m0 & [] & [= <-] & H).
  destruct (which w "cmake").
  - destruct (PurePath.relative_to _ _).
    + left. exact (project_build_silent _ _ _ _ _ _ _ _ H).
    + right. right. exact (direct_compilation_printed _ _ _ _ _ _ _ H).
  - right. left. exact (direct_compilation_printed _ _ _ _ _ _ _ H).
Qed.

(** C6. When no early exit is asked for, [main] compiles directly exactly
    when [cmake] is not on the search path or the file lies outside the
    project root, and builds through the project otherwise: the strategy
    that this rule names is the one that runs. *)
Theorem strategy_selection (w : World) (parsed : Parsed) (s : Strategy) :
  list_generators parsed = false ->
  print_binary parsed = false ->
  (s = DirectCompile <->
   which w "cmake" = None \/
   ~ inside (resolve w (cwd w)) (resolve w (PurePath.of_str (file parsed)))) ->
  exists message,
    forall m, main_build w parsed m = run_strategy w parsed s message m.
Proof.
  intros Hl Hp Hs.
  set (project_root := resolve w (cwd w)) in *.
  set (file_abs := resolve w (PurePath.of_str (file parsed))) in *.
  destruct s.
  - destruct (which w "cmake") as [found | ] eqn:Hw.
    + exists OUTSIDE_MESSAGE. intros m.
      rewrite (main_build_select w parsed m Hl Hp). cbv zeta.
      unfold run_strategy. rewrite Hw.
      fold project_root file_abs.
      destruct (proj1 Hs eq_refl) as [H | H]; [discriminate | ].
      now rewrite (relative_to_outside _ _ H).
    + exists NO_CMAKE_MESSAGE. intros m.
      rewrite (main_build_select w parsed m Hl Hp). cbv zeta.
      unfold run_strategy. now rewrite Hw.
  - exists "". intros m.
    rewrite (main_build_select w parsed m Hl Hp). cbv zeta.
    unfold run_strategy. fold project_root file_abs.
    destruct (which w "cmake") as [found | ] eqn:Hw.
    + destruct (PurePath.relative_to file_abs project_root) as [r | e] eqn:Hr;
        [reflexivity | ].
      assert (Hout : ~ inside project_root file_abs).
      { intros Hin. rewrite (relative_to_inside _ _ Hin) in Hr. discriminate. }
      now discriminate (proj2 Hs (or_intror Hout)).
    + now discriminate (proj2 Hs (or_introl eq_refl)).
Qed.

(** With [cmake] off the search path, [main] compiles directly. *)
Lemma strategy_selection_witness :
  exists message,
    forall m,
      main_build (sample_world false 0 0) (command_line "src/foo.c" None) m =
      run_strategy (sample_world false 0 0) (command_line "src/foo.c" None)
        DirectCompile message m.
Proof.
  apply (strategy_selection (sample_world false 0 0)
           (command_line "src/foo.c" None) DirectCompile eq_refl eq_refl).
  split; intros _; [left | ]; reflexivity.
Defined.

(** What [execute] does when the program exits with a non-zero code. *)
Lemma execute_child_fails
    (w : World) (binary : Path) (cleanup_dir : option Path)
    (exec_args : list string) (m : Machine) (p : CompletedProcess) :
  run w (PurePath.as_posix binary :: exec_args) = Ok p ->
  returncode p <> 0%Z ->
  let r := execute w binary cleanup_dir exec_args m in
  snd r = Raise (SystemExit (returncode p)) /\
  printed (fst r) =
    (printed m ++
     [("--- Executing: " ++ PurePath.as_posix binary)%string] ++
     (if nonempty exec_args
      then [("--- Arguments: " ++ Str.join " " exec_args)%string] else []) ++
     [("-------------------------------" ++ String "010" "")%string;
      ("Executable returned non-zero exit code " ++ Str.of_int (returncode p))%string])%list.
Proof.
  intros Hrun Hcode. apply Z.eqb_neq in Hcode.
  unfold execute, bind, print, when, try_finally, try_except, subprocess_run,
    fail, sys_exit, raise, ret, bind, print.
  destruct (nonempty exec_args); simpl; rewrite Hrun, Hcode; simpl;
    (destruct cleanup_dir as [d | ]; simpl;
     [destruct (existsb (PurePath.eqb d) (tmpdirs m)); simpl;
      [destruct (rmtree_fails w d); simpl | ] | ]);
    rewrite <- ?app_assoc; simpl; split; reflexivity.
Qed.

(** None of the lines printed on the way to a program failure opens a log
    dump. *)
Lemma not_header_executing (x : string) : "--- Executing: " ++ x <> LOG_DUMP_HEADER.
Proof. intros H. vm_compute in H. discriminate. Qed.

Lemma not_header_arguments (x : string) : "--- Arguments: " ++ x <> LOG_DUMP_HEADER.
Proof. intros H. vm_compute in H. discriminate. Qed.

Lemma not_header_returned (x : string) :
  "Executable returned non-zero exit code " ++ x <> LOG_DUMP_HEADER.
Proof. intros H. vm_compute in H. discriminate. Qed.

(** C7. When the built or compiled program exits with a non-zero code,
    that is a code from 1 to 255, [main] ends in [sys.exit] with that code
    and the exit status of the tool is that code; the last line printed is
    "Executable returned non-zero exit code N", which is neither of the two
    build-failure messages; and the build log is not dumped. *)
Theorem child_exit_code_mirrored
    (w : World) (parsed : Parsed) (m1 : Machine)
    (binary : Path) (cleanup_dir : option Path) (p : CompletedProcess) :
  main_build w parsed boot = (m1, Ok (binary, cleanup_dir)) ->
  run w (PurePath.as_posix binary :: args parsed) = Ok p ->
  (0 < returncode p < 256)%Z ->
  let r := main w parsed boot in
  let message := "Executable returned non-zero exit code " ++ Str.of_int (returncode p) in
  snd r = Raise (SystemExit (returncode p)) /\
  exit_status (snd r) = returncode p /\
  last (printed (fst r)) "" = message /\
  (forall code : Z,
     message <> "CMake failed with exit code " ++ Str.of_int code ++
                ". Logs at " ++ PurePath.as_posix LOG_FILE ++ "." /\
     message <> "Compilation failed with exit code " ++ Str.of_int code ++
                ". Logs at " ++ PurePath.as_posix LOG_FILE ++ ".") /\
  ~ In LOG_DUMP_HEADER (printed (fst r)).
Proof.
  intros Hbuild Hrun Hrange r message.
  assert (Hcode : returncode p <> 0%Z) by lia.
  destruct (execute_child_fails w binary cleanup_dir (args parsed) m1 p Hrun Hcode)
    as [Hr Hp].
  assert (Er : r = execute w binary cleanup_dir (args parsed) m1).
  { subst r. unfold main, bind. now rewrite Hbuild. }
  rewrite Er, Hr, Hp. repeat split.
  - simpl. apply Z.mod_small. lia.
  - rewrite last_app_nonempty by discriminate.
    destruct (nonempty (args parsed)); reflexivity.
  - subst message. simpl. discriminate.
  - subst message. simpl. discriminate.
  - intros Hin. apply in_app_or in Hin as [Hin | Hin].
    + destruct (main_build_printed _ _ _ _ _ Hbuild) as [E | [E | E]];
        rewrite E in Hin; simpl in Hin.
      * exact Hin.
      * destruct Hin as [Hin | []]. vm_compute in Hin. discriminate.
      * destruct Hin as [Hin | []]. vm_compute in Hin. discriminate.
    + destruct (nonempty (args parsed)); simpl in Hin;
        repeat match type of Hin with
               | _ \/ _ => destruct Hin as [Hin | Hin]
               | False => exact Hin
               end;
        symmetry in Hin;
        first [ now apply not_header_executing in Hin
              | now apply not_header_arguments in Hin
              | now apply not_header_returned in Hin
              | vm_compute in Hin; discriminate ].
Qed.

(** The compiled program exits with code 7: the tool exits with code 7
    and dumps no log. *)
Lemma child_exit_code_mirrored_witness :
  let r := main (sample_world false 0 7) (command_line "src/foo.c" None) boot in
  exit_status (snd r) = 7%Z /\ ~ In LOG_DUMP_HEADER (printed (fst r)).
Proof.
  destruct (child_exit_code_mirrored
              (sample_world false 0 7) (command_line "src/foo.c" None)
              (fst (main_build (sample_world false 0 7) (command_line "src/foo.c" None) boot))
              (PurePath.of_str "/tmp/c-run-0001/a.out")
              (Some (PurePath.of_str "/tmp/c-run-0001"))
              (mkCompleted 7 "" "")
              eq_refl eq_refl (conj eq_refl eq_refl))
    as (_ & Hstatus & _ & _ & Hdump).
  split; [exact Hstatus | exact Hdump].
Defined.

(** ** The temporary directory *)

(** X19. Whatever the program does, [execute] removes the temporary
    directory when [shutil.rmtree] succeeds. *)
Lemma execute_removes_tmpdir
    (w : World) (binary d : Path) (exec_args : list string) (m : Machine) :
  rmtree_fails w d = false ->
  existsb (PurePath.eqb d) (tmpdirs (fst (execute w binary (Some d) exec_args m))) = false.
Proof.
  intros Hrm.
  unfold execute, bind, print, when, try_finally, try_except, subprocess_run,
    fail, sys_exit, raise, ret, bind, print.
  assert (Hfilter : forall l,
            existsb (PurePath.eqb d) (filter (fun x => negb (PurePath.eqb d x)) l) = false).
  { induction l as [|x l IH]; [reflexivity | ]. simpl.
    destruct (PurePath.eqb d x) eqn:E; simpl; [exact IH | now rewrite E]. }
  destruct (nonempty exec_args); simpl;
    (destruct (run w (PurePath.as_posix binary :: exec_args)) as [p | e]; simpl;
     [destruct (returncode p =? 0)%Z; simpl | destruct (is_CalledProcessError e) eqn:Ee;
        [destruct e; try discriminate; simpl | simpl]]);
    (destruct (existsb (PurePath.eqb d) (tmpdirs m)) eqn:Ex; simpl;
     [rewrite Hrm; simpl; apply Hfilter | exact Ex]).
Qed.

(** X20. Cleaning up never changes how [execute] ends, even when
    [shutil.rmtree] fails. *)
Lemma execute_outcome_unaffected
    (w : World) (binary : Path) (cleanup_dir : option Path)
    (exec_args : list string) (m : Machine) :
  snd (execute w binary cleanup_dir exec_args m) =
  snd (execute w binary None exec_args m).
Proof.
  unfold execute, bind, print, when, try_finally, try_except, subprocess_run,
    fail, sys_exit, raise, ret, bind, print.
  destruct (nonempty exec_args); simpl;
    (destruct (run w (PurePath.as_posix binary :: exec_args)) as [p | e]; simpl;
     [destruct (returncode p =? 0)%Z; simpl | destruct (is_CalledProcessError e) eqn:Ee;
        [destruct e; try discriminate; simpl | simpl]]);
    (destruct cleanup_dir as [d | ]; simpl; [ | reflexivity]);
    (destruct (existsb (PurePath.eqb d) (tmpdirs m)); simpl; [ | reflexivity]);
    destruct (rmtree_fails w d); reflexivity.
Qed.

(** C4. [cmake] is not on the search path, [cc] is, and compiling
    [src/foo.c] fails with exit code 1: the tool exits with code 1 after the
    log dump, and the temporary directory [/tmp/c-run-0001] that
    [direct_compile] made is still there. *)
Theorem tmpdir_left_after_failed_compilation :
  let r := main (sample_world false 1 0) (command_line "src/foo.c" None) boot in
  snd r = Raise (SystemExit 1) /\
  spawned (fst r) =
    [["cc"; "src/foo.c"; "-std=c17"; "-O0"; "-g"; "-o"; "/tmp/c-run-0001/a.out"]] /\
  tmpdirs (fst r) = [abs ["tmp"; "c-run-0001"]].
Proof. vm_compute. repeat split; reflexivity. Qed.

(** The project build never makes a temporary directory. *)
Lemma fail_with_log_keeps_tmpdirs {A : Type} (w : World) (message : string) (code : Z) :
  keeps tmpdirs (@fail_with_log A w message code).
Proof.
  unfold fail_with_log, sys_exit.
  apply keeps_bind; [auto with py | intros _].
  apply keeps_bind; [auto with py | intros _].
  apply keeps_bind; [ | auto with py].
  intros m. destruct (log m) as [content | ]; [ | reflexivity].
  apply (keeps_try_except tmpdirs); auto with py.
Qed.

(** X22. Whatever its outcome, the project build neither makes nor
    removes a temporary directory. *)
Lemma project_build_keeps_tmpdirs
    (w : World) (parsed : Parsed) (file_abs project_root : Path) (build_config : string) :
  keeps tmpdirs (project_build w parsed file_abs project_root build_config).
Proof.
  assert (Hfail : forall A message code, keeps tmpdirs (@fail A message code)).
  { intros. unfold fail, sys_exit. auto with py. }
  unfold project_build, configure_build, build_target.
  apply keeps_bind; [auto with py | intros target].
  apply keeps_bind; [auto 6 with py | intros g].
  apply keeps_bind; [auto 6 with py | intros g'].
  apply keeps_bind; [ | intros _].
  - apply keeps_try_except; [auto with py | ].
    intros [ | | | | | | code | code]; auto using fail_with_log_keeps_tmpdirs with py.
  - apply keeps_bind; [ | auto with py]. auto with py.
Qed.

(** ** Concrete instances *)

(** Output that decodes to something other than a manifest is not among
    the probe failures that [read_capabilities] absorbs. *)
Example choose_generator_not_a_manifest :
  let w := mkWorld None "posix" (abs ["proj"]) (fun p => p) (fun _ => true)
             (fun _ => Some "/usr/bin/cmake")
             (fun _ => Ok (mkCompleted 0 "[]" "[]"))
             (fun _ => Ok (JArr []))
             (fun _ => "/tmp/x") (fun _ => false) (fun t => Ok t) (fun _ => "") in
  snd (choose_generator w PREFERRED_GENERATORS boot) = Raise AttributeError.
Proof. reflexivity. Qed.

(** CMake reports three generators; the first preferred one is chosen. *)
Lemma choose_generator_first_reported_witness :
  exists found,
    snd (choose_generator (sample_world true 0 0) PREFERRED_GENERATORS boot) = Ok found /\
    first_such (fun c => In c ["Ninja Multi-Config"; "Ninja"; "Unix Makefiles"])
      PREFERRED_GENERATORS found.
Proof.
  apply (choose_generator_first_reported (sample_world true 0 0)
           ["Ninja Multi-Config"; "Ninja"; "Unix Makefiles"]).
  apply (manifest (sample_world true 0 0)
           (mkCompleted 0 "{manifest}" "{manifest}")
           [ ("version", JObj [("major", JNum "3")]);
             ("generators",
              JArr [ JObj [("name", JStr "Ninja Multi-Config")];
                     JObj [("name", JStr "Ninja")];
                     JObj [("name", JStr "Unix Makefiles")] ]) ]
           [ JObj [("name", JStr "Ninja Multi-Config")];
             JObj [("name", JStr "Ninja")];
             JObj [("name", JStr "Unix Makefiles")] ]);
    try reflexivity.
  repeat constructor; eexists; split; reflexivity.
Defined.

Example choose_generator_sample :
  snd (choose_generator (sample_world true 0 0) PREFERRED_GENERATORS boot)
  = Ok (Some "Ninja Multi-Config") /\
  snd (choose_generator (sample_world false 0 0) PREFERRED_GENERATORS boot)
  = Ok None.
Proof. split; reflexivity. Qed.

(** Built with [--config Release] under "Ninja Multi-Config", looked for
    under [build/Debug]. *)
Lemma exe_path_ignores_config_witness :
  build_target_cmd "src_foo_c" "Ninja Multi-Config" "Release" [] =
    ["cmake"; "--build"; "build"; "--target"; "src_foo_c"; "--config"; "Release"] /\
  exe_path (sample_world true 0 0) "src_foo_c" "Ninja Multi-Config" =
    PurePath.of_str "build/Debug/src_foo_c" /\
  exe_path (sample_world true 0 0) "src_foo_c" "Ninja Multi-Config" <>
    PurePath.of_str "build/Release/src_foo_c".
Proof.
  destruct (exe_path_ignores_config (sample_world true 0 0)
              "src_foo_c" "Ninja Multi-Config" "Release" []
              eq_refl ltac:(discriminate) ltac:(discriminate))
    as (Hbuild & Hpath & Hneq).
  split; [exact Hbuild | split; [exact Hpath | ]].
  exact (Hneq eq_refl eq_refl eq_refl).
Defined.

(** X21. The sentinel of a file outside the root is the identifier of
    the file of the same name at the top of the project. *)
Lemma normalize_outside_is_top_level
    (resolve : Path -> Path) (file_path root : Path) :
  resolve root = root ->
  resolve file_path = file_path ->
  resolve (under root [PurePath.name file_path]) = under root [PurePath.name file_path] ->
  ~ inside root file_path ->
  single_name (PurePath.name file_path) = true ->
  normalize_target_in_project resolve file_path root =
  normalize_target_in_project resolve (under root [PurePath.name file_path]) root.
Proof.
  intros Hroot Hfile Htop Hout Hname.
  unfold normalize_target_in_project at 1.
  rewrite Hroot, Hfile, (relative_to_outside _ _ Hout). simpl is_Exception. cbv iota.
  rewrite (of_str_single_name _ Hname).
  assert (Hne : PurePath.name file_path <> "").
  { intros E. rewrite E in Hname. discriminate. }
  rewrite (normalize_under resolve root [PurePath.name file_path]) by assumption.
  rewrite with_suffix_empty by exact Hne.
  rewrite ext_of_suffix. reflexivity.
Qed.

(** ** More of the orchestration *)


Lemma bind_raise {A B : Type} (c : Py A) (k : A -> Py B) (m m' : Machine) (e : exn) :
  c m = (m', Raise e) -> bind c k m = (m', Raise e).
Proof. intros H. unfold bind. now rewrite H. Qed.

(** X1. An empty [--generator] value and an empty [--config] value each
    count as no value, whatever the other option holds: the run is the one
    of the command line without the empty option. *)
Theorem empty_options_are_ignored
    (w : World) (file : string) (args : list string)
    (generator config : option string) (cmake_arg build_arg : list string)
    (list_generators print_binary : bool) (m : Machine) :
  main w (mkParsed file args generator config cmake_arg build_arg
            list_generators print_binary) m =
  main w (mkParsed file args (given generator) (given config) cmake_arg build_arg
            list_generators print_binary) m.
Proof.
  destruct generator as [[|c1 g] | ]; destruct config as [[|c2 c] | ]; reflexivity.
Qed.

(** X2. The log of an earlier run is discarded: what [main] does, and
    the log it leaves, do not depend on what the log held before. *)
Theorem log_is_truncated_at_start
    (w : World) (parsed : Parsed) (printed : list string) (old1 old2 : option string)
    (tmpdirs : list Path) (spawned : list (list string)) :
  main w parsed (mkMachine printed old1 tmpdirs spawned) =
  main w parsed (mkMachine printed old2 tmpdirs spawned).
Proof. reflexivity. Qed.

(** What [run_logged] does, in full. *)
Lemma run_logged_eq (w : World) (line : string) (cmd : list string) (m : Machine) :
  run_logged w line cmd m =
  (mkMachine (printed m)
     (Some (match run w cmd with
            | Ok p => ((log_text m ++ "") ++ output p) ++ line
            | Raise _ => (log_text m ++ "") ++ line
            end))
     (tmpdirs m) (spawned m ++ [cmd])%list,
   match run w cmd with
   | Ok p =>
       if (returncode p =? 0)%Z then Ok tt
       else Raise (CalledProcessError (returncode p))
   | Raise e => Raise e
   end).
Proof.
  unfold run_logged, bind, try_finally, subprocess_run, append_log, write_log, ret.
  simpl. destruct (run w cmd) as [p | e]; simpl; [ | reflexivity].
  destruct (returncode p =? 0)%Z; reflexivity.
Qed.


Lemma parent_of_child (d : Path) (name : string) :
  single_name name = true -> PurePath.parent (d // PurePath.of_str name) = d.
Proof.
  intros H. rewrite (of_str_single_name _ H).
  unfold PurePath.truediv, PurePath.parent. simpl.
  rewrite removelast_last. now destruct d.
Qed.


Lemma choose_compiler_in (w : World) (preferred : list string) (c : string) :
  choose_compiler w preferred = Some c -> In c preferred.
Proof.
  rewrite choose_compiler_find. intros H. now apply find_some in H as [H _].
Qed.

Lemma preferred_compiler_truthy (is_c : bool) (c : string) :
  In c (if is_c then PREFERRED_COMPILERS_C else PREFERRED_COMPILERS_CXX) ->
  Str.truthy c = true.
Proof.
  destruct is_c; simpl; intros H;
    repeat (destruct H as [<- | H]; [reflexivity | ]); destruct H.
Qed.

(** The direct compilation once the compiler has run, in full. *)
Lemma direct_compilation_eq
    (w : World) (parsed : Parsed) (is_c : bool) (message compiler : string)
    (m : Machine) (p : CompletedProcess) :
  let temp_dir := PurePath.of_str (mkdtemp w (if is_c then "c-run-" else "cpp-run-")) in
  let exe := temp_dir // PurePath.of_str (if os_name w =? "nt" then "a.exe" else "a.out") in
  let cmd := direct_compile_cmd (file parsed) compiler exe is_c in
  let m1 :=
    mkMachine (printed m ++ [message])%list
      (Some (((log_text m ++ "") ++ output p) ++
             ("Compiling with " ++ compiler ++ String "010" "")))
      (temp_dir :: tmpdirs m) (spawned m ++ [cmd])%list in
  choose_compiler w (if is_c then PREFERRED_COMPILERS_C else PREFERRED_COMPILERS_CXX)
    = Some compiler ->
  run w cmd = Ok p ->
  direct_compilation w parsed is_c message m =
  if (returncode p =? 0)%Z then (m1, Ok (exe, Some temp_dir))
  else
    fail_with_log w
      ("Compilation failed with exit code " ++ Str.of_int (returncode p) ++
       ". Logs at " ++ PurePath.as_posix LOG_FILE ++ ".") (returncode p) m1.
Proof.
  intros temp_dir exe cmd m1 Hc Hrun.
  pose proof (preferred_compiler_truthy _ _ (choose_compiler_in _ _ _ Hc)) as Ht.
  unfold direct_compilation. rewrite Hc. unfold opt_truthy, or_else. rewrite Ht.
  unfold direct_compile. fold temp_dir. fold exe. fold cmd.
  unfold bind at 1. unfold print at 1. unfold bind at 1. unfold ret at 1.
  cbn [negb]. cbv beta iota. fold cmd. unfold try_except, bind. cbv beta iota.
  rewrite run_logged_eq. cbn [printed log tmpdirs spawned log_text]. rewrite Hrun.
  destruct (returncode p =? 0)%Z.
  - unfold ret. subst m1. repeat f_equal.
    subst exe. apply parent_of_child. now destruct (os_name w =? "nt").
  - reflexivity.
Qed.

Lemma fail_eq {A : Type} (message : string) (code : Z) (m : Machine) :
  @fail A message code m =
  (mkMachine (printed m ++ [message])%list (log m) (tmpdirs m) (spawned m),
   Raise (SystemExit code)).
Proof. reflexivity. Qed.

(** The log dump when the log can be read back. *)
Lemma fail_with_log_eq {A : Type}
    (w : World) (message : string) (code : Z) (m : Machine) (content text : string) :
  log m = Some content ->
  read_text w content = Ok text ->
  @fail_with_log A w message code m =
  (mkMachine (printed m ++ [message; LOG_DUMP_HEADER; text; "---- end log ----"])%list
     (log m) (tmpdirs m) (spawned m),
   Raise (SystemExit code)).
Proof.
  intros Hlog Hread.
  unfold fail_with_log, bind, print, try_except, lift, sys_exit, raise.
  cbn [log printed tmpdirs spawned]. rewrite Hlog, Hread.
  cbn [log printed tmpdirs spawned]. rewrite <- !app_assoc. reflexivity.
Qed.

Lemma main_of_build_raise
    (w : World) (parsed : Parsed) (m m' : Machine) (e : exn) :
  main_build w parsed m = (m', Raise e) -> main w parsed m = (m', Raise e).
Proof. intros H. unfold main. now apply bind_raise. Qed.


(** When [cmake] is missing or the file is outside the project,
    [main_build] is the direct compilation on the emptied log. *)
Lemma main_build_direct (w : World) (parsed : Parsed) (m : Machine) :
  list_generators parsed = false ->
  print_binary parsed = false ->
  which w "cmake" = None \/
  ~ inside (resolve w (cwd w)) (resolve w (PurePath.of_str (file parsed))) ->
  main_build w parsed m =
  direct_compilation w parsed
    (Str.lower (PurePath.suffix (PurePath.of_str (file parsed))) =? ".c")
    (match which w "cmake" with
     | None => NO_CMAKE_MESSAGE
     | Some _ => OUTSIDE_MESSAGE
     end)
    (mkMachine (printed m) (Some "") (tmpdirs m) (spawned m)).
Proof.
  intros Hl Hp Hcond. rewrite (main_build_select w parsed m Hl Hp). cbv zeta.
  unfold bind at 1. unfold write_log at 1.
  destruct (which w "cmake") as [found | ]; [ | reflexivity].
  destruct Hcond as [H | H]; [discriminate | ].
  now rewrite (relative_to_outside _ _ H).
Qed.


(** X4. A failed compilation. In the setting of the direct compilation,
    when the compiler exits with a non-zero code and the log can be read
    back: [main] asks for the exit code of the compiler; it has printed the
    fallback line, the failure line with the code, and the log between the
    two marker lines; and the compiler is the only command that was
    started. *)
Theorem failed_compilation_is_reported
    (w : World) (parsed : Parsed) (compiler : string) (p0 : CompletedProcess) :
  let is_c := Str.lower (PurePath.suffix (PurePath.of_str (file parsed))) =? ".c" in
  let temp_dir := PurePath.of_str (mkdtemp w (if is_c then "c-run-" else "cpp-run-")) in
  let exe := temp_dir // PurePath.of_str (if os_name w =? "nt" then "a.exe" else "a.out") in
  let compile := direct_compile_cmd (file parsed) compiler exe is_c in
  list_generators parsed = false ->
  print_binary parsed = false ->
  which w "cmake" = None \/
  ~ inside (resolve w (cwd w)) (resolve w (PurePath.of_str (file parsed))) ->
  choose_compiler w (if is_c then PREFERRED_COMPILERS_C else PREFERRED_COMPILERS_CXX)
    = Some compiler ->
  run w compile = Ok p0 -> returncode p0 <> 0%Z ->
  (forall content, read_text w content = Ok content) ->
  let r := main w parsed boot in
  snd r = Raise (SystemExit (returncode p0)) /\
  spawned (fst r) = [compile] /\
  exists content,
    log (fst r) = Some content /\
    printed (fst r) =
      [ match which w "cmake" with
        | None => NO_CMAKE_MESSAGE
        | Some _ => OUTSIDE_MESSAGE
        end;
        ("Compilation failed with exit code " ++ Str.of_int (returncode p0) ++
         ". Logs at build_output.log.")%string;
        "---- build log (build_output.log) ----";
        content;
        "---- end log ----" ].
Proof.
  intros is_c temp_dir exe compile Hl Hp Hcond Hc Hcompile Hcode Hread r.
  assert (Hbuild := main_build_direct w parsed boot Hl Hp Hcond).
  fold is_c in Hbuild.
  rewrite (direct_compilation_eq w parsed is_c _ compiler _ p0 Hc Hcompile) in Hbuild.
  apply Z.eqb_neq in Hcode. rewrite Hcode in Hbuild.
  fold temp_dir exe compile in Hbuild.
  erewrite fail_with_log_eq in Hbuild; [ | reflexivity | apply Hread].
  subst r. rewrite (main_of_build_raise _ _ _ _ _ Hbuild).
  cbn [fst snd spawned log printed boot app]. repeat split.
  eexists. split; reflexivity.
Qed.

(** X5. No compiler. In the setting of the direct compilation, when no
    compiler of the preference list is on the search path, [main] prints
    the fallback line and the list it looked for, asks for exit code 1, and
    has neither started a command nor made a temporary directory. *)
Theorem no_compiler_is_fatal (w : World) (parsed : Parsed) :
  let is_c := Str.lower (PurePath.suffix (PurePath.of_str (file parsed))) =? ".c" in
  list_generators parsed = false ->
  print_binary parsed = false ->
  which w "cmake" = None \/
  ~ inside (resolve w (cwd w)) (resolve w (PurePath.of_str (file parsed))) ->
  choose_compiler w (if is_c then PREFERRED_COMPILERS_C else PREFERRED_COMPILERS_CXX)
    = None ->
  let r := main w parsed boot in
  snd r = Raise (SystemExit 1) /\
  printed (fst r) =
    [ match which w "cmake" with
      | None => NO_CMAKE_MESSAGE
      | Some _ => OUTSIDE_MESSAGE
      end;
      if is_c then "No compiler found. Looked for: cc, gcc, clang, cl"
      else "No compiler found. Looked for: c++, g++, clang++, cl" ] /\
  spawned (fst r) = [] /\
  tmpdirs (fst r) = [].
Proof.
  intros is_c Hl Hp Hcond Hc r.
  assert (Hbuild := main_build_direct w parsed boot Hl Hp Hcond).
  fold is_c in Hbuild. unfold direct_compilation in Hbuild.
  rewrite Hc in Hbuild.
  subst r. erewrite main_of_build_raise; [ | rewrite Hbuild; reflexivity].
  cbn [fst snd]. repeat split. destruct is_c; reflexivity.
Qed.

(** When [cmake] is there and the file is inside the project,
    [main_build] is the project build on the emptied log. *)
Lemma main_build_project (w : World) (parsed : Parsed) (m : Machine) (found : string) :
  list_generators parsed = false ->
  print_binary parsed = false ->
  which w "cmake" = Some found ->
  inside (resolve w (cwd w)) (resolve w (PurePath.of_str (file parsed))) ->
  main_build w parsed m =
  project_build w parsed (resolve w (PurePath.of_str (file parsed))) (resolve w (cwd w))
    (or_else (config parsed) (DEFAULT_CONFIG w))
    (mkMachine (printed m) (Some "") (tmpdirs m) (spawned m)).
Proof.
  intros Hl Hp Hw Hin. rewrite (main_build_select w parsed m Hl Hp). cbv zeta.
  unfold bind at 1. unfold write_log at 1. rewrite Hw.
  now rewrite (relative_to_inside _ _ Hin).
Qed.

(** What [read_capabilities] and [choose_generator] do to the machine:
    the query is started, nothing else changes. *)
Lemma read_capabilities_machine (w : World) (m : Machine) :
  fst (read_capabilities w m) =
  mkMachine (printed m) (log m) (tmpdirs m) (spawned m ++ [CAPABILITIES])%list.
Proof.
  unfold read_capabilities, try_except, bind, subprocess_run, lift, ret.
  fold CAPABILITIES. simpl.
  destruct (run w CAPABILITIES) as [p | e]; simpl.
  - destruct (returncode p =? 0)%Z; simpl; [ | reflexivity].
    destruct (json_loads w (stdout p)) as [j | e]; [reflexivity | ].
    destruct (is_probe_error e); reflexivity.
  - destruct (is_probe_error e); reflexivity.
Qed.

Lemma choose_generator_machine (w : World) (preferred : list string) (m : Machine) :
  fst (choose_generator w preferred m) =
  mkMachine (printed m) (log m) (tmpdirs m) (spawned m ++ [CAPABILITIES])%list.
Proof.
  unfold choose_generator, bind, lift, ret.
  pose proof (read_capabilities_machine w m) as H.
  destruct (read_capabilities w m) as [m' [data | e]]; simpl in *; [ | exact H].
  destruct (generator_name_set data); exact H.
Qed.

Lemma existsb_eq_str_map (c : string) (names : list string) :
  existsb (Json.eq_str c) (map JStr names) = existsb (String.eqb c) names.
Proof. induction names as [|n names IH]; simpl; [reflexivity | now rewrite IH]. Qed.

Lemma choose_generator_reports
    (w : World) (names preferred : list string) (m : Machine) :
  reports w names ->
  snd (choose_generator w preferred m) =
  Ok (find (fun c => existsb (String.eqb c) names) preferred).
Proof.
  intros H.
  assert (E : find (fun c => existsb (Json.eq_str c) (map JStr names)) preferred =
              find (fun c => existsb (String.eqb c) names) preferred).
  { induction preferred as [|c l IH]; [reflexivity | ].
    simpl. now rewrite existsb_eq_str_map, IH. }
  rewrite <- E. clear E.
  rewrite choose_generator_result, read_capabilities_result.
  destruct H as [E | p E Hc | p E Hc Hj | p members E Hc Hj Hg
                 | p members gens names E Hc Hj Hg Hd];
    rewrite E; try reflexivity.
  - apply Z.eqb_neq in Hc. now rewrite Hc.
  - apply Z.eqb_eq in Hc. now rewrite Hc, Hj.
  - apply Z.eqb_eq in Hc. rewrite Hc, Hj.
    unfold generator_name_set, Json.get. now rewrite Hg.
  - apply Z.eqb_eq in Hc. rewrite Hc, Hj.
    unfold generator_name_set. rewrite (get_member _ _ _ _ Hg).
    simpl Json.iter. cbv iota. now rewrite (for_each_describes _ _ Hd).
Qed.

(** The outcome of the step that settles the generator: the [-G] value if
    it is not empty, the choice of [choose_generator] otherwise. *)
Lemma generator_step_explicit (w : World) (explicit : option string) (g : string) (m : Machine) :
  explicit = Some g -> g <> "" ->
  or_maybe explicit (choose_generator w PREFERRED_GENERATORS) m = (m, Ok (Some g)).
Proof.
  intros -> Hg. unfold or_maybe, Str.truthy.
  apply String.eqb_neq in Hg. now rewrite Hg.
Qed.

Lemma generator_step_auto
    (w : World) (explicit : option string) (names : list string) (m : Machine) :
  opt_truthy explicit = false ->
  reports w names ->
  or_maybe explicit (choose_generator w PREFERRED_GENERATORS) m =
  (mkMachine (printed m) (log m) (tmpdirs m) (spawned m ++ [CAPABILITIES])%list,
   Ok (find (fun c => existsb (String.eqb c) names) PREFERRED_GENERATORS)).
Proof.
  intros He Hr.
  assert (E : or_maybe explicit (choose_generator w PREFERRED_GENERATORS) m =
              choose_generator w PREFERRED_GENERATORS m).
  { unfold or_maybe. destruct explicit as [s | ]; [ | reflexivity].
    simpl in He. now rewrite He. }
  rewrite E. rewrite (surjective_pairing (choose_generator w PREFERRED_GENERATORS m)).
  now rewrite choose_generator_machine, (choose_generator_reports _ _ _ _ Hr).
Qed.

Lemma fail_with_log_bind {A B : Type}
    (w : World) (message : string) (code : Z) (k : A -> Py B) (m : Machine) :
  bind (@fail_with_log A w message code) k m = @fail_with_log B w message code m.
Proof.
  unfold fail_with_log, bind, print, try_except, lift, sys_exit, raise. simpl.
  destruct (log m) as [content | ]; [ | reflexivity].
  destruct (read_text w content) as [text | e]; [reflexivity | ].
  destruct (is_OSError e); reflexivity.
Qed.

(** The project build from the settled generator on: a failing
    configure step. *)
Lemma project_build_configure_fails
    (w : World) (parsed : Parsed) (file_abs project_root : Path)
    (build_config target g : string) (m m0 : Machine) (p1 : CompletedProcess) :
  normalize_target_in_project (resolve w) file_abs project_root = Ok target ->
  or_maybe (generator parsed) (choose_generator w PREFERRED_GENERATORS) m = (m0, Ok (Some g)) ->
  g <> "" ->
  let c1 := configure_build_cmd g build_config (cmake_arg parsed) in
  run w c1 = Ok p1 ->
  returncode p1 <> 0%Z ->
  project_build w parsed file_abs project_root build_config m =
  fail_with_log w
    ("CMake failed with exit code " ++ Str.of_int (returncode p1) ++
     ". Logs at " ++ PurePath.as_posix LOG_FILE ++ ".") (returncode p1)
    (mkMachine (printed m0)
       (Some (((log_text m0 ++ "") ++ output p1) ++
              ("Configuring with generator: " ++ g ++ String "010" "")))
       (tmpdirs m0) (spawned m0 ++ [c1])%list).
Proof.
  intros Hn Hg Hne c1 Hrun1 Hcode. apply Z.eqb_neq in Hcode.
  unfold project_build. rewrite Hn.
  unfold bind at 1. unfold lift at 1. unfold bind at 1. rewrite Hg.
  unfold opt_truthy, or_else, Str.truthy. apply String.eqb_neq in Hne. rewrite Hne.
  cbn [negb]. cbv iota. unfold bind at 1. unfold ret at 1.
  unfold configure_build. fold c1.
  match goal with
  | |- bind _ ?k _ = _ => rewrite <- (fail_with_log_bind (A:=unit) w _ _ k)
  end.
  unfold bind at 1 3. unfold try_except. unfold bind at 1.
  rewrite run_logged_eq, Hrun1, Hcode. reflexivity.
Qed.

(** The project build from the settled generator on: the configure step
    succeeds and the build tool runs. *)
Lemma project_build_configured
    (w : World) (parsed : Parsed) (file_abs project_root : Path)
    (build_config target g : string) (m m0 : Machine) (p1 p2 : CompletedProcess) :
  normalize_target_in_project (resolve w) file_abs project_root = Ok target ->
  or_maybe (generator parsed) (choose_generator w PREFERRED_GENERATORS) m = (m0, Ok (Some g)) ->
  g <> "" ->
  let c1 := configure_build_cmd g build_config (cmake_arg parsed) in
  let c2 := build_target_cmd target g build_config (build_arg parsed) in
  let binary := exe_path w target g in
  run w c1 = Ok p1 -> returncode p1 = 0%Z ->
  run w c2 = Ok p2 ->
  let m2 :=
    mkMachine (printed m0)
      (Some (((((((log_text m0 ++ "") ++ output p1) ++
                ("Configuring with generator: " ++ g ++ String "010" "")) ++ "") ++
              output p2) ++
             ("Building target: " ++ target ++ String "010" ""))))
      (tmpdirs m0) ((spawned m0 ++ [c1]) ++ [c2])%list in
  project_build w parsed file_abs project_root build_config m =
  if (returncode p2 =? 0)%Z then
    if path_exists w binary then (m2, Ok (binary, None))
    else fail ("Built binary not found at " ++ PurePath.as_posix binary) 1 m2
  else
    fail_with_log w
      ("CMake failed with exit code " ++ Str.of_int (returncode p2) ++
       ". Logs at " ++ PurePath.as_posix LOG_FILE ++ ".") (returncode p2) m2.
Proof.
  intros Hn Hg Hne c1 c2 binary Hrun1 Hcode1 Hrun2 m2.
  apply Z.eqb_eq in Hcode1.
  unfold project_build. rewrite Hn.
  unfold bind at 1. unfold lift at 1. unfold bind at 1. rewrite Hg.
  unfold opt_truthy, or_else, Str.truthy. apply String.eqb_neq in Hne. rewrite Hne.
  cbn [negb]. cbv iota. unfold bind at 1. unfold ret at 1.
  unfold configure_build, build_target. fold c1 c2 binary.
  destruct (returncode p2 =? 0)%Z eqn:Hcode2.
  - unfold bind at 1. unfold try_except. unfold bind at 1.
    rewrite run_logged_eq, Hrun1, Hcode1. rewrite run_logged_eq.
    cbn [printed log tmpdirs spawned log_text]. rewrite Hrun2, Hcode2.
    fold m2. unfold bind, when, ret.
    destruct (path_exists w binary); reflexivity.
  - match goal with
    | |- bind _ ?k _ = _ => rewrite <- (fail_with_log_bind (A:=unit) w _ _ k)
    end.
    unfold bind at 1 3. unfold try_except. unfold bind at 1.
    rewrite run_logged_eq, Hrun1, Hcode1. rewrite run_logged_eq.
    cbn [printed log tmpdirs spawned log_text]. rewrite Hrun2, Hcode2.
    reflexivity.
Qed.

Lemma settles_step
    (w : World) (parsed : Parsed) (g : string) (probe : list (list string)) (m : Machine) :
  settles w parsed g probe ->
  or_maybe (generator parsed) (choose_generator w PREFERRED_GENERATORS) m =
  (mkMachine (printed m) (log m) (tmpdirs m) (spawned m ++ probe)%list, Ok (Some g)) /\
  g <> "".
Proof.
  intros [He Hg | names He Hr Hf].
  - split; [ | exact Hg]. rewrite (generator_step_explicit _ _ _ _ He Hg).
    rewrite app_nil_r. now destruct m.
  - split.
    + rewrite (generator_step_auto _ _ _ _ He Hr). now rewrite <- Hf.
    + apply find_some in Hf as [Hin _]. intros ->.
      simpl in Hin. repeat (destruct Hin as [Hin | Hin]; [discriminate | ]).
      exact Hin.
Qed.


(** X7. A build without its binary. In the setting of the project build,
    when both CMake steps succeed but no file is where [exe_path] says,
    [main] prints where it looked, asks for exit code 1, and has started
    nothing after the build step. *)
Theorem missing_binary_is_fatal
    (w : World) (parsed : Parsed) (found target g : string)
    (probe : list (list string)) (p1 p2 : CompletedProcess) :
  let project_root := resolve w (cwd w) in
  let file_abs := resolve w (PurePath.of_str (file parsed)) in
  let build_config := or_else (config parsed) (DEFAULT_CONFIG w) in
  let c1 := configure_build_cmd g build_config (cmake_arg parsed) in
  let c2 := build_target_cmd target g build_config (build_arg parsed) in
  let binary := exe_path w target g in
  list_generators parsed = false ->
  print_binary parsed = false ->
  which w "cmake" = Some found ->
  inside project_root file_abs ->
  normalize_target_in_project (resolve w) file_abs project_root = Ok target ->
  settles w parsed g probe ->
  run w c1 = Ok p1 -> returncode p1 = 0%Z ->
  run w c2 = Ok p2 -> returncode p2 = 0%Z ->
  path_exists w binary = false ->
  let r := main w parsed boot in
  snd r = Raise (SystemExit 1) /\
  printed (fst r) = [("Built binary not found at " ++ PurePath.as_posix binary)%string] /\
  spawned (fst r) = (probe ++ [c1; c2])%list.
Proof.
  intros project_root file_abs build_config c1 c2 binary
    Hl Hp Hw Hin Hn Hs Hr1 Hc1 Hr2 Hc2 Hex r.
  assert (Hbuild := main_build_project w parsed boot found Hl Hp Hw Hin).
  fold project_root file_abs build_config in Hbuild.
  destruct (settles_step w parsed g probe
              (mkMachine (printed boot) (Some "") (tmpdirs boot) (spawned boot)) Hs)
    as [Hstep Hne].
  rewrite (project_build_configured w parsed file_abs project_root build_config
             target g _ _ p1 p2 Hn Hstep Hne Hr1 Hc1 Hr2) in Hbuild.
  fold c1 c2 binary in Hbuild. rewrite Hc2, Hex in Hbuild.
  simpl Z.eqb in Hbuild. cbv iota in Hbuild. rewrite fail_eq in Hbuild.
  subst r. rewrite (main_of_build_raise _ _ _ _ _ Hbuild).
  cbn [fst snd printed spawned boot app]. rewrite <- !app_assoc. repeat split.
Qed.

(** X8. A failed configure step. In the setting of the project build,
    when the configure step exits with a non-zero code and the log can be
    read back: [main] asks for that exit code; it has printed the failure
    line with the code and the log between the two marker lines; and the
    build step was never started. *)
Theorem failed_configure_is_reported
    (w : World) (parsed : Parsed) (found target g : string)
    (probe : list (list string)) (p1 : CompletedProcess) :
  let project_root := resolve w (cwd w) in
  let file_abs := resolve w (PurePath.of_str (file parsed)) in
  let build_config := or_else (config parsed) (DEFAULT_CONFIG w) in
  let c1 := configure_build_cmd g build_config (cmake_arg parsed) in
  list_generators parsed = false ->
  print_binary parsed = false ->
  which w "cmake" = Some found ->
  inside project_root file_abs ->
  normalize_target_in_project (resolve w) file_abs project_root = Ok target ->
  settles w parsed g probe ->
  run w c1 = Ok p1 -> returncode p1 <> 0%Z ->
  (forall content, read_text w content = Ok content) ->
  let r := main w parsed boot in
  snd r = Raise (SystemExit (returncode p1)) /\
  spawned (fst r) = (probe ++ [c1])%list /\
  exists content,
    log (fst r) = Some content /\
    printed (fst r) =
      [ ("CMake failed with exit code " ++ Str.of_int (returncode p1) ++
         ". Logs at build_output.log.")%string;
        "---- build log (build_output.log) ----";
        content;
        "---- end log ----" ].
Proof.
  intros project_root file_abs build_config c1
    Hl Hp Hw Hin Hn Hs Hr1 Hc1 Hread r.
  assert (Hbuild := main_build_project w parsed boot found Hl Hp Hw Hin).
  fold project_root file_abs build_config in Hbuild.
  destruct (settles_step w parsed g probe
              (mkMachine (printed boot) (Some "") (tmpdirs boot) (spawned boot)) Hs)
    as [Hstep Hne].
  rewrite (project_build_configure_fails w parsed file_abs project_root build_config
             target g _ _ p1 Hn Hstep Hne Hr1 Hc1) in Hbuild.
  fold c1 in Hbuild.
  erewrite fail_with_log_eq in Hbuild; [ | reflexivity | apply Hread].
  subst r. rewrite (main_of_build_raise _ _ _ _ _ Hbuild).
  cbn [fst snd spawned log printed boot app]. repeat split.
  eexists. split; reflexivity.
Qed.

(** X9. A failed build step. In the setting of the project build, when
    the configure step succeeds, the build step exits with a non-zero code
    and the log can be read back: [main] asks for that exit code; it has
    printed the failure line with the code and the log between the two
    marker lines; and nothing was started after the build step. *)
Theorem failed_build_is_reported
    (w : World) (parsed : Parsed) (found target g : string)
    (probe : list (list string)) (p1 p2 : CompletedProcess) :
  let project_root := resolve w (cwd w) in
  let file_abs := resolve w (PurePath.of_str (file parsed)) in
  let build_config := or_else (config parsed) (DEFAULT_CONFIG w) in
  let c1 := configure_build_cmd g build_config (cmake_arg parsed) in
  let c2 := build_target_cmd target g build_config (build_arg parsed) in
  list_generators parsed = false ->
  print_binary parsed = false ->
  which w "cmake" = Some found ->
  inside project_root file_abs ->
  normalize_target_in_project (resolve w) file_abs project_root = Ok target ->
  settles w parsed g probe ->
  run w c1 = Ok p1 -> returncode p1 = 0%Z ->
  run w c2 = Ok p2 -> returncode p2 <> 0%Z ->
  (forall content, read_text w content = Ok content) ->
  let r := main w parsed boot in
  snd r = Raise (SystemExit (returncode p2)) /\
  spawned (fst r) = (probe ++ [c1; c2])%list /\
  exists content,
    log (fst r) = Some content /\
    printed (fst r) =
      [ ("CMake failed with exit code " ++ Str.of_int (returncode p2) ++
         ". Logs at build_output.log.")%string;
        "---- build log (build_output.log) ----";
        content;
        "---- end log ----" ].
Proof.
  intros project_root file_abs build_config c1 c2
    Hl Hp Hw Hin Hn Hs Hr1 Hc1 Hr2 Hc2 Hread r.
  assert (Hbuild := main_build_project w parsed boot found Hl Hp Hw Hin).
  fold project_root file_abs build_config in Hbuild.
  destruct (settles_step w parsed g probe
              (mkMachine (printed boot) (Some "") (tmpdirs boot) (spawned boot)) Hs)
    as [Hstep Hne].
  rewrite (project_build_configured w parsed file_abs project_root build_config
             target g _ _ p1 p2 Hn Hstep Hne Hr1 Hc1 Hr2) in Hbuild.
  fold c1 c2 in Hbuild. apply Z.eqb_neq in Hc2. rewrite Hc2 in Hbuild.
  erewrite fail_with_log_eq in Hbuild; [ | reflexivity | apply Hread].
  subst r. rewrite (main_of_build_raise _ _ _ _ _ Hbuild).
  cbn [fst snd spawned log printed boot app]. rewrite <- !app_assoc. repeat split.
  eexists. split; reflexivity.
Qed.

(** X10. No generator. In the setting of the project build, when no
    generator is given and none of the preferred generators is among those
    the build tool reports, [main] prints the list it tried, asks for exit
    code 1, and has started the query and nothing else. *)
Theorem no_generator_is_fatal
    (w : World) (parsed : Parsed) (found target : string) (names : list string) :
  let project_root := resolve w (cwd w) in
  let file_abs := resolve w (PurePath.of_str (file parsed)) in
  list_generators parsed = false ->
  print_binary parsed = false ->
  which w "cmake" = Some found ->
  inside project_root file_abs ->
  normalize_target_in_project (resolve w) file_abs project_root = Ok target ->
  opt_truthy (generator parsed) = false ->
  reports w names ->
  first_reported names PREFERRED_GENERATORS = None ->
  let r := main w parsed boot in
  snd r = Raise (SystemExit 1) /\
  printed (fst r) =
    ["No suitable CMake generator found. Tried: Ninja Multi-Config, Ninja, Unix Makefiles, MinGW Makefiles, Visual Studio 17 2022"] /\
  spawned (fst r) = [CAPABILITIES].
Proof.
  intros project_root file_abs Hl Hp Hw Hin Hn He Hr Hf r.
  assert (Hbuild := main_build_project w parsed boot found Hl Hp Hw Hin).
  fold project_root file_abs in Hbuild.
  unfold project_build in Hbuild. rewrite Hn in Hbuild.
  unfold bind at 1 in Hbuild. unfold lift at 1 in Hbuild.
  unfold bind at 1 in Hbuild.
  rewrite (generator_step_auto _ _ _ _ He Hr) in Hbuild.
  unfold first_reported in Hf. rewrite Hf in Hbuild.
  subst r. erewrite main_of_build_raise; [ | rewrite Hbuild; reflexivity].
  repeat split.
Qed.

Lemma under_nil (root : Path) : under root [] = root.
Proof. unfold under. rewrite app_nil_r. now destruct root. Qed.

Lemma normalize_of_root (resolve : Path -> Path) (root : Path) :
  resolve root = root ->
  normalize_target_in_project resolve root root = Raise ValueError.
Proof.
  intros H. unfold normalize_target_in_project. rewrite H.
  rewrite <- (under_nil root) at 1. rewrite relative_to_under. reflexivity.
Qed.

(** X11. The project root given as the file. When [cmake] is on the
    search path and the file of the command line resolves to the working
    directory itself, the file counts as inside the project, no target
    identifier can be derived from it, and [main] ends with the [ValueError]
    of [normalize_target_in_project], uncaught, before it has printed or
    started anything. *)
Theorem project_root_as_file_is_uncaught
    (w : World) (parsed : Parsed) (found : string) :
  let project_root := resolve w (cwd w) in
  list_generators parsed = false ->
  print_binary parsed = false ->
  which w "cmake" = Some found ->
  resolve w (PurePath.of_str (file parsed)) = project_root ->
  resolve w project_root = project_root ->
  normalize_target_in_project (resolve w) project_root project_root = Raise ValueError /\
  main w parsed boot = (mkMachine [] (Some "") [] [], Raise ValueError) /\
  exit_status (snd (main w parsed boot)) = 1%Z.
Proof.
  intros project_root Hl Hp Hw Hfile Hroot.
  assert (Hn := normalize_of_root (resolve w) project_root Hroot).
  assert (Hin : inside project_root (resolve w (PurePath.of_str (file parsed)))).
  { exists []. now rewrite under_nil. }
  assert (Hbuild := main_build_project w parsed boot found Hl Hp Hw Hin).
  fold project_root in Hbuild. rewrite Hfile in Hbuild.
  unfold project_build in Hbuild. rewrite Hn in Hbuild.
  assert (Hmain : main w parsed boot = (mkMachine [] (Some "") [] [], Raise ValueError)).
  { erewrite main_of_build_raise; [ | rewrite Hbuild; reflexivity]. reflexivity. }
  rewrite Hmain. repeat split. exact Hn.
Qed.

(** With [--print-binary] and without [--list-generators], [main] is the
    early exit on the emptied log. *)
Lemma main_print_binary (w : World) (parsed : Parsed) (m : Machine) :
  list_generators parsed = false ->
  print_binary parsed = true ->
  main w parsed m =
  print_binary_and_exit w parsed (mkMachine (printed m) (Some "") (tmpdirs m) (spawned m)).
Proof.
  intros Hl Hp. unfold main, main_build. rewrite Hl, Hp.
  unfold bind, write_log, try_except, lift, when, ret.
  unfold PurePath.relative_to.
  destruct (Bool.eqb _ _); [destruct (PurePath.strip_prefix _ _) | ];
    cbn [is_ValueError]; cbv beta iota;
    match goal with
    | |- context [print_binary_and_exit w parsed ?M] =>
        destruct (print_binary_and_exit w parsed M) as [m' [a | e]] eqn:E
    end;
    try reflexivity;
    now destruct (exits_print_binary w parsed _ _ _ E).
Qed.

(** With [--list-generators], [main] is the early exit on the emptied
    log. *)
Lemma main_list_generators (w : World) (parsed : Parsed) (m : Machine) :
  list_generators parsed = true ->
  main w parsed m =
  list_generators_and_exit w (mkMachine (printed m) (Some "") (tmpdirs m) (spawned m)).
Proof.
  intros Hl. unfold main, main_build. rewrite Hl.
  unfold bind, write_log, try_except, lift, when, ret.
  unfold PurePath.relative_to.
  destruct (Bool.eqb _ _); [destruct (PurePath.strip_prefix _ _) | ];
    cbn [is_ValueError]; cbv beta iota;
    match goal with
    | |- context [list_generators_and_exit w ?M] =>
        destruct (list_generators_and_exit w M) as [m' [a | e]] eqn:E
    end;
    try reflexivity;
    now destruct (exits_list_generators w _ _ _ E).
Qed.

(** X12. [--print-binary] for a file that is not in the project. With
    [--print-binary], when the file is outside the project root, or is the
    root itself, [main] prints "(file outside project)", asks for exit
    code 0, and has started nothing. *)
Theorem print_binary_outside_project (w : World) (parsed : Parsed) :
  let project_root := resolve w (cwd w) in
  let file_abs := resolve w (PurePath.of_str (file parsed)) in
  list_generators parsed = false ->
  print_binary parsed = true ->
  ~ inside project_root file_abs \/
  (file_abs = project_root /\ resolve w project_root = project_root) ->
  main w parsed boot =
  (mkMachine ["(file outside project)"] (Some "") [] [], Raise (SystemExit 0)).
Proof.
  intros project_root file_abs Hl Hp Hcase.
  rewrite (main_print_binary w parsed boot Hl Hp).
  unfold print_binary_and_exit. fold project_root file_abs.
  unfold bind at 1. unfold try_except. unfold bind at 1. unfold lift at 1.
  destruct Hcase as [Hout | [Hfile Hroot]].
  - rewrite (relative_to_outside _ _ Hout). reflexivity.
  - rewrite Hfile. rewrite <- (under_nil project_root) at 1.
    rewrite relative_to_under.
    unfold bind at 1. unfold lift at 1. fold project_root.
    rewrite (normalize_of_root _ _ Hroot). reflexivity.
Qed.

(** X13. [--print-binary] for a file of the project. With
    [--print-binary], when the file is inside the project and the generator
    is settled, [main] prints the resolved path of [exe_path] for the target
    of the file, asks for exit code 0, and has started nothing but the query
    for the generators, if it needed one: nothing is configured, built or
    run. *)
Theorem print_binary_inside_project
    (w : World) (parsed : Parsed) (target g : string) (probe : list (list string)) :
  let project_root := resolve w (cwd w) in
  let file_abs := resolve w (PurePath.of_str (file parsed)) in
  list_generators parsed = false ->
  print_binary parsed = true ->
  inside project_root file_abs ->
  normalize_target_in_project (resolve w) file_abs project_root = Ok target ->
  settles w parsed g probe ->
  main w parsed boot =
  (mkMachine [PurePath.as_posix (resolve w (exe_path w target g))] (Some "") [] probe,
   Raise (SystemExit 0)).
Proof.
  intros project_root file_abs Hl Hp Hin Hn Hs.
  rewrite (main_print_binary w parsed boot Hl Hp).
  unfold print_binary_and_exit. fold project_root file_abs.
  unfold bind at 1. unfold try_except. unfold bind at 1. unfold lift at 1.
  rewrite (relative_to_inside _ _ Hin).
  unfold bind at 1. unfold lift at 1. rewrite Hn.
  unfold bind at 1.
  destruct (settles_step w parsed g probe
              (mkMachine (printed boot) (Some "") (tmpdirs boot) (spawned boot)) Hs)
    as [Hstep Hne].
  rewrite Hstep. unfold Str.truthy. apply String.eqb_neq in Hne. rewrite Hne.
  reflexivity.
Qed.

Lemma for_each_names (gens : list json) (names : list string) :
  Forall2 describes gens names ->
  for_each (fun g => Json.get g "name" JNull) gens = Ok (map JStr names).
Proof.
  induction 1 as [|g n gens names (members & -> & Hn) _ IH]; [reflexivity | ].
  simpl. rewrite Hn. now rewrite IH.
Qed.

(** What [read_capabilities] returns when the build tool reports
    [names], and the list of names read off it. *)
Lemma read_capabilities_reports (w : World) (names : list string) (m : Machine) :
  reports w names ->
  exists data,
    snd (read_capabilities w m) = Ok data /\
    generator_names data = Ok (map JStr names).
Proof.
  intros H. rewrite read_capabilities_result.
  destruct H as [E | p E Hc | p E Hc Hj | p members E Hc Hj Hg
                 | p members gens names E Hc Hj Hg Hd];
    rewrite E; cbv zeta.
  - exists (JObj []). split; reflexivity.
  - apply Z.eqb_neq in Hc. rewrite Hc. exists (JObj []). split; reflexivity.
  - apply Z.eqb_eq in Hc. rewrite Hc, Hj. exists (JObj []). split; reflexivity.
  - apply Z.eqb_eq in Hc. rewrite Hc, Hj. exists (JObj members). split; [reflexivity | ].
    unfold generator_names, Json.get. now rewrite Hg.
  - apply Z.eqb_eq in Hc. rewrite Hc, Hj. exists (JObj members). split; [reflexivity | ].
    unfold generator_names. rewrite (get_member _ _ _ _ Hg).
    simpl Json.iter. cbv iota. apply (for_each_names _ _ Hd).
Qed.

Lemma print_each (w : World) (gens : list json) (c : Py unit) (m m1 : Machine) :
  c m = (m1, Ok tt) ->
  fold_left (fun acc name => acc ;; print ("- " ++ Json.str (format w) name)) gens c m =
  (mkMachine (printed m1 ++ map (fun name => ("- " ++ Json.str (format w) name)%string) gens)%list
     (log m1) (tmpdirs m1) (spawned m1), Ok tt).
Proof.
  revert c m1. induction gens as [|g gens IH]; intros c m1 Hc; simpl.
  - rewrite Hc, app_nil_r. now destruct m1.
  - erewrite IH; [ | unfold bind; rewrite Hc; reflexivity].
    cbn [printed log tmpdirs spawned]. now rewrite <- app_assoc.
Qed.

(** X14. [--list-generators]. With [--list-generators], whatever else the
    command line asks for, [main] starts the query for the generators and
    nothing else, and asks for exit code 0. It prints one line per reported
    generator, "- " and the name of the generator, under the heading
    "Available CMake generators:", or, when
    none is reported (the build tool is absent, fails, prints what cannot
    be decoded, or reports none), the line "No generators found. Ensure
    CMake is installed and on PATH.". *)
Theorem list_generators_lists_and_exits
    (w : World) (parsed : Parsed) (names : list string) :
  list_generators parsed = true ->
  reports w names ->
  main w parsed boot =
  (mkMachine
     match names with
     | [] => ["No generators found. Ensure CMake is installed and on PATH."]
     | _ :: _ =>
         "Available CMake generators:" ::
         map (fun name => ("- " ++ name)%string) names
     end
     (Some "") [] [CAPABILITIES],
   Raise (SystemExit 0)).
Proof.
  intros Hl Hr. rewrite (main_list_generators w parsed boot Hl).
  set (m0 := mkMachine (printed boot) (Some "") (tmpdirs boot) (spawned boot)).
  destruct (read_capabilities_reports w names m0 Hr) as (data & Hdata & Hnames).
  pose proof (read_capabilities_machine w m0) as Hm.
  unfold list_generators_and_exit.
  unfold bind at 1.
  destruct (read_capabilities w m0) as [m1 r1]. simpl in Hdata, Hm. subst r1 m1.
  unfold bind at 1. unfold lift at 1. rewrite Hnames.
  destruct names as [|n names].
  - reflexivity.
  - cbn [map nonempty negb]. cbv iota. unfold bind at 1. unfold bind at 1.
    unfold print at 1. erewrite print_each; [ | reflexivity].
    cbn [printed log tmpdirs spawned map app]. rewrite map_map. reflexivity.
Qed.

Lemma lower_char_sep (c : ascii) :
  Ascii.eqb (Str.lower_char c) "/" = Ascii.eqb c "/".
Proof. destruct c as [[] [] [] [] [] [] [] []]; reflexivity. Qed.

Lemma occurs_sep_lower (s : string) : occurs "/" (Str.lower s) = occurs "/" s.
Proof.
  induction s as [|a s IH]; simpl; [reflexivity | ].
  now rewrite lower_char_sep, IH.
Qed.

Lemma occurs_replaced (a b : ascii) (s : string) :
  a <> b -> occurs a (Str.replace a b s) = false.
Proof.
  intros Hab. induction s as [|c s IH]; simpl; [reflexivity | ].
  rewrite IH, orb_false_r.
  destruct (Ascii.eqb_spec c a) as [-> | Hc].
  - apply Ascii.eqb_neq. congruence.
  - now apply Ascii.eqb_neq.
Qed.

(** X15. A target identifier holds no path separator. Whatever the file
    and the root, inside the project or not, an identifier that
    [normalize_target_in_project] returns contains no "/", provided the
    name of the file contains none. *)
Theorem identifier_has_no_separator
    (resolve : Path -> Path) (file_path project_root : Path) (target : string) :
  occurs "/" (PurePath.name file_path) = false ->
  normalize_target_in_project resolve file_path project_root = Ok target ->
  occurs "/" target = false.
Proof.
  intros Hname. unfold normalize_target_in_project.
  rewrite ext_of_suffix.
  assert (Hext : occurs "/" (Str.lower (extension (PurePath.name file_path))) = false).
  { rewrite occurs_sep_lower. now apply occurs_extension. }
  set (ext := Str.lower (extension (PurePath.name file_path))) in *. clearbody ext.
  assert (Hgoal : forall rel,
    match PurePath.with_suffix rel "" with
    | Ok p =>
        Ok (if Str.truthy ext
            then Str.replace "/" "_" (PurePath.as_posix p) ++ "_" ++ ext
            else Str.replace "/" "_" (PurePath.as_posix p))
    | Raise e => Raise e
    end = Ok target -> occurs "/" target = false).
  { intros rel. destruct (PurePath.with_suffix rel "") as [p | e]; [ | discriminate].
    intros [= <-]. destruct (Str.truthy ext).
    - rewrite !occurs_append, occurs_replaced by discriminate. simpl. exact Hext.
    - apply occurs_replaced. discriminate. }
  destruct (PurePath.relative_to _ _) as [rel | e].
  - apply Hgoal.
  - destruct (is_Exception e); [apply Hgoal | discriminate].
Qed.

(** X16. The binary is looked for below [build]. On a platform other
    than Windows, when neither the target nor the default configuration
    starts with "/", the path of [exe_path] is relative and its first
    component is [build], for every generator. *)
Theorem exe_path_below_build (w : World) (target generator : string) :
  os_name w <> "nt" ->
  prefix "/" target = false ->
  prefix "/" (DEFAULT_CONFIG w) = false ->
  anchored (exe_path w target generator) = false /\
  hd_error (parts (exe_path w target generator)) = Some "build".
Proof.
  intros Hos Ht Hd. apply String.eqb_neq in Hos.
  assert (Hfile : anchored (PurePath.of_str (target ++ "")) = false).
  { unfold PurePath.of_str. simpl anchored. now apply prefix_sep_append. }
  assert (Hcfg : anchored (PurePath.of_str (DEFAULT_CONFIG w)) = false).
  { exact Hd. }
  unfold exe_path. rewrite Hos.
  destruct (is_multi_config generator); unfold PurePath.truediv;
    rewrite ?Hcfg, Hfile; split; reflexivity.
Qed.

(** X17. Decoded output that is no JSON object. When the query succeeds
    and its output decodes to a value that is not an object (a list, a
    string, a number, a boolean, null), [choose_generator] raises
    [AttributeError]: this is not one of the failures that count as "no
    generators known". *)
Theorem choose_generator_rejects_non_object
    (w : World) (preferred : list string) (m : Machine)
    (p : CompletedProcess) (data : json) :
  run w CAPABILITIES = Ok p ->
  returncode p = 0%Z ->
  json_loads w (stdout p) = Ok data ->
  (forall members, data <> JObj members) ->
  snd (choose_generator w preferred m) = Raise AttributeError.
Proof.
  intros Hrun Hc Hj Hdata.
  rewrite choose_generator_result, read_capabilities_result.
  apply Z.eqb_eq in Hc. rewrite Hrun, Hc, Hj. cbv zeta.
  destruct data; try reflexivity. now destruct (Hdata members).
Qed.

(** X18. The generator probe has no effect but its query. Whatever the
    outcome, [choose_generator] starts the query [cmake -E capabilities] and
    changes nothing else: it prints nothing, leaves the log and the
    temporary directories alone; and its answer does not depend on the
    state it is called in. *)
Theorem choose_generator_only_queries
    (w : World) (preferred : list string) (m m' : Machine) :
  fst (choose_generator w preferred m) =
    mkMachine (printed m) (log m) (tmpdirs m) (spawned m ++ [CAPABILITIES])%list /\
  snd (choose_generator w preferred m) = snd (choose_generator w preferred m').
Proof.
  split; [apply choose_generator_machine | ].
  now rewrite !choose_generator_result, !read_capabilities_result.
Qed.

(** ** Concrete runs of the properties above *)

Lemma sample_world_reports :
  reports (sample_world true 0 0) ["Ninja Multi-Config"; "Ninja"; "Unix Makefiles"].
Proof.
  apply (manifest (sample_world true 0 0)
           (mkCompleted 0 "{manifest}" "{manifest}")
           [ ("version", JObj [("major", JNum "3")]);
             ("generators",
              JArr [ JObj [("name", JStr "Ninja Multi-Config")];
                     JObj [("name", JStr "Ninja")];
                     JObj [("name", JStr "Unix Makefiles")] ]) ]
           [ JObj [("name", JStr "Ninja Multi-Config")];
             JObj [("name", JStr "Ninja")];
             JObj [("name", JStr "Unix Makefiles")] ]);
    try reflexivity.
  repeat constructor; eexists; split; reflexivity.
Qed.

Lemma sample_inside :
  inside (abs ["proj"]) (abs ["proj"; "src"; "foo.c"]).
Proof. now exists ["src"; "foo.c"]. Qed.

Lemma sample_outside :
  ~ inside (abs ["proj"]) (abs ["tmp"; "foo.c"]).
Proof. intros [rel H]. discriminate. Qed.


(** A file outside the project whose compilation fails with code 1. *)
Lemma failed_compilation_is_reported_witness :
  let r := main (sample_world true 1 0) (command_line "/tmp/foo.c" None) boot in
  snd r = Raise (SystemExit 1) /\
  spawned (fst r) =
    [["cc"; "/tmp/foo.c"; "-std=c17"; "-O0"; "-g"; "-o"; "/tmp/c-run-0001/a.out"]] /\
  exists content,
    log (fst r) = Some content /\
    printed (fst r) =
      [ OUTSIDE_MESSAGE;
        "Compilation failed with exit code 1. Logs at build_output.log.";
        "---- build log (build_output.log) ----";
        content;
        "---- end log ----" ].
Proof.
  exact (failed_compilation_is_reported (sample_world true 1 0)
           (command_line "/tmp/foo.c" None) "cc" (mkCompleted 1 "" "")
           eq_refl eq_refl (or_intror sample_outside) eq_refl eq_refl
           ltac:(discriminate) (fun content => eq_refl)).
Defined.

Lemma no_compiler_is_fatal_witness :
  let r := main (with_which (sample_world false 0 0) (fun _ => None))
             (command_line "src/foo.cpp" None) boot in
  snd r = Raise (SystemExit 1) /\
  printed (fst r) =
    [ NO_CMAKE_MESSAGE; "No compiler found. Looked for: c++, g++, clang++, cl" ] /\
  spawned (fst r) = [] /\
  tmpdirs (fst r) = [].
Proof.
  exact (no_compiler_is_fatal (with_which (sample_world false 0 0) (fun _ => None))
           (command_line "src/foo.cpp" None)
           eq_refl eq_refl (or_introl eq_refl) eq_refl).
Defined.


Lemma missing_binary_is_fatal_witness :
  let r := main (with_path_exists (sample_world true 0 0) (fun _ => false))
             (command_line_G "src/foo.c" "Ninja") boot in
  snd r = Raise (SystemExit 1) /\
  printed (fst r) = ["Built binary not found at build/src_foo_c"] /\
  spawned (fst r) =
    [ ["cmake"; "-S"; "."; "-B"; "build"; "-G"; "Ninja"; "-Wno-dev"; "-DCMAKE_BUILD_TYPE=Debug"];
      ["cmake"; "--build"; "build"; "--target"; "src_foo_c"] ].
Proof.
  exact (missing_binary_is_fatal (with_path_exists (sample_world true 0 0) (fun _ => false))
           (command_line_G "src/foo.c" "Ninja")
           "/usr/bin/cmake" "src_foo_c" "Ninja" []
           (mkCompleted 0 "-- done" "-- done") (mkCompleted 0 "-- done" "-- done")
           eq_refl eq_refl eq_refl sample_inside eq_refl
           (by_option (with_path_exists (sample_world true 0 0) (fun _ => false)) (command_line_G "src/foo.c" "Ninja") "Ninja"
              eq_refl ltac:(discriminate))
           eq_refl eq_refl eq_refl eq_refl eq_refl).
Defined.

Lemma failed_configure_is_reported_witness :
  let r := main (failing_at "-S" 1) (command_line_G "src/foo.c" "Ninja") boot in
  snd r = Raise (SystemExit 1) /\
  spawned (fst r) =
    [["cmake"; "-S"; "."; "-B"; "build"; "-G"; "Ninja"; "-Wno-dev"; "-DCMAKE_BUILD_TYPE=Debug"]] /\
  exists content,
    log (fst r) = Some content /\
    printed (fst r) =
      [ "CMake failed with exit code 1. Logs at build_output.log.";
        "---- build log (build_output.log) ----";
        content;
        "---- end log ----" ].
Proof.
  exact (failed_configure_is_reported (failing_at "-S" 1)
           (command_line_G "src/foo.c" "Ninja")
           "/usr/bin/cmake" "src_foo_c" "Ninja" []
           (mkCompleted 1 "" "error")
           eq_refl eq_refl eq_refl sample_inside eq_refl
           (by_option (failing_at "-S" 1) (command_line_G "src/foo.c" "Ninja") "Ninja"
              eq_refl ltac:(discriminate))
           eq_refl ltac:(discriminate) (fun content => eq_refl)).
Defined.

Lemma failed_build_is_reported_witness :
  let r := main (failing_at "--build" 2) (command_line_G "src/foo.c" "Ninja") boot in
  snd r = Raise (SystemExit 2) /\
  spawned (fst r) =
    [ ["cmake"; "-S"; "."; "-B"; "build"; "-G"; "Ninja"; "-Wno-dev"; "-DCMAKE_BUILD_TYPE=Debug"];
      ["cmake"; "--build"; "build"; "--target"; "src_foo_c"] ] /\
  exists content,
    log (fst r) = Some content /\
    printed (fst r) =
      [ "CMake failed with exit code 2. Logs at build_output.log.";
        "---- build log (build_output.log) ----";
        content;
        "---- end log ----" ].
Proof.
  exact (failed_build_is_reported (failing_at "--build" 2)
           (command_line_G "src/foo.c" "Ninja")
           "/usr/bin/cmake" "src_foo_c" "Ninja" []
           (mkCompleted 0 "-- done" "-- done") (mkCompleted 2 "" "error")
           eq_refl eq_refl eq_refl sample_inside eq_refl
           (by_option (failing_at "--build" 2) (command_line_G "src/foo.c" "Ninja") "Ninja"
              eq_refl ltac:(discriminate))
           eq_refl eq_refl eq_refl ltac:(discriminate) (fun content => eq_refl)).
Defined.

(** [cmake] is found on the search path but cannot be started. *)
Lemma no_generator_is_fatal_witness :
  let r := main (with_run (sample_world true 0 0) (fun _ => Raise FileNotFoundError))
             (command_line "src/foo.c" None) boot in
  snd r = Raise (SystemExit 1) /\
  printed (fst r) =
    ["No suitable CMake generator found. Tried: Ninja Multi-Config, Ninja, Unix Makefiles, MinGW Makefiles, Visual Studio 17 2022"] /\
  spawned (fst r) = [CAPABILITIES].
Proof.
  exact (no_generator_is_fatal
           (with_run (sample_world true 0 0) (fun _ => Raise FileNotFoundError))
           (command_line "src/foo.c" None) "/usr/bin/cmake" "src_foo_c" []
           eq_refl eq_refl eq_refl sample_inside eq_refl eq_refl
           (tool_absent
              (with_run (sample_world true 0 0) (fun _ => Raise FileNotFoundError)) eq_refl)
           eq_refl).
Defined.

(** [run.py .] in the project. *)
Lemma project_root_as_file_is_uncaught_witness :
  main (sample_world true 0 0) (command_line "." None) boot =
  (mkMachine [] (Some "") [] [], Raise ValueError).
Proof.
  exact (proj1 (proj2 (project_root_as_file_is_uncaught (sample_world true 0 0)
           (command_line "." None) "/usr/bin/cmake"
           eq_refl eq_refl eq_refl eq_refl eq_refl))).
Defined.

Lemma print_binary_outside_project_witness :
  main (sample_world true 0 0) (command_line_flags "/tmp/foo.c" false true) boot =
  (mkMachine ["(file outside project)"] (Some "") [] [], Raise (SystemExit 0)).
Proof.
  exact (print_binary_outside_project (sample_world true 0 0)
           (command_line_flags "/tmp/foo.c" false true)
           eq_refl eq_refl (or_introl sample_outside)).
Defined.

Lemma print_binary_inside_project_witness :
  main (sample_world true 0 0) (command_line_flags "src/foo.c" false true) boot =
  (mkMachine ["/proj/build/Debug/src_foo_c"] (Some "") [] [CAPABILITIES],
   Raise (SystemExit 0)).
Proof.
  exact (print_binary_inside_project (sample_world true 0 0)
           (command_line_flags "src/foo.c" false true)
           "src_foo_c" "Ninja Multi-Config" [CAPABILITIES]
           eq_refl eq_refl sample_inside eq_refl
           (by_query (sample_world true 0 0) (command_line_flags "src/foo.c" false true)
              "Ninja Multi-Config" ["Ninja Multi-Config"; "Ninja"; "Unix Makefiles"]
              eq_refl sample_world_reports eq_refl)).
Defined.

Lemma list_generators_lists_and_exits_witness :
  main (sample_world true 0 0) (command_line_flags "src/foo.c" true true) boot =
  (mkMachine
     [ "Available CMake generators:";
       "- Ninja Multi-Config"; "- Ninja"; "- Unix Makefiles" ]
     (Some "") [] [CAPABILITIES],
   Raise (SystemExit 0)).
Proof.
  exact (list_generators_lists_and_exits (sample_world true 0 0)
           (command_line_flags "src/foo.c" true true)
           ["Ninja Multi-Config"; "Ninja"; "Unix Makefiles"]
           eq_refl sample_world_reports).
Defined.

Lemma identifier_has_no_separator_witness : occurs "/" "src_foo_c" = false.
Proof.
  exact (identifier_has_no_separator (fun p => p)
           (abs ["proj"; "src"; "foo.c"]) (abs ["proj"]) "src_foo_c"
           eq_refl eq_refl).
Defined.

Lemma exe_path_below_build_witness :
  anchored (exe_path (sample_world true 0 0) "src_foo_c" "Ninja Multi-Config") = false /\
  hd_error (parts (exe_path (sample_world true 0 0) "src_foo_c" "Ninja Multi-Config"))
  = Some "build".
Proof.
  exact (exe_path_below_build (sample_world true 0 0) "src_foo_c" "Ninja Multi-Config"
           ltac:(discriminate) eq_refl eq_refl).
Defined.

(** The build tool prints a JSON list. *)
Lemma choose_generator_rejects_non_object_witness :
  snd (choose_generator
         (with_json_loads (sample_world true 0 0) (fun _ => Ok (JArr [])))
         PREFERRED_GENERATORS boot) = Raise AttributeError.
Proof.
  exact (choose_generator_rejects_non_object
           (with_json_loads (sample_world true 0 0) (fun _ => Ok (JArr [])))
           PREFERRED_GENERATORS boot (mkCompleted 0 "{manifest}" "{manifest}") (JArr [])
           eq_refl eq_refl eq_refl ltac:(discriminate)).
Defined.

Lemma execute_removes_tmpdir_witness :
  existsb (PurePath.eqb (abs ["tmp"; "c-run-0001"]))
    (tmpdirs (fst (execute (sample_world false 0 3)
                     (abs ["tmp"; "c-run-0001"; "a.out"])
                     (Some (abs ["tmp"; "c-run-0001"])) []
                     (mkMachine [] (Some "") [abs ["tmp"; "c-run-0001"]] []))))
  = false.
Proof.
  exact (execute_removes_tmpdir (sample_world false 0 3)
           (abs ["tmp"; "c-run-0001"; "a.out"]) (abs ["tmp"; "c-run-0001"]) []
           (mkMachine [] (Some "") [abs ["tmp"; "c-run-0001"]] []) eq_refl).
Defined.

Lemma normalize_outside_is_top_level_witness :
  normalize_target_in_project (fun p => p) (abs ["tmp"; "foo.c"]) (abs ["proj"]) =
  normalize_target_in_project (fun p => p) (under (abs ["proj"]) ["foo.c"]) (abs ["proj"]).
Proof.
  exact (normalize_outside_is_top_level (fun p => p) (abs ["tmp"; "foo.c"]) (abs ["proj"])
           eq_refl eq_refl eq_refl sample_outside eq_refl).
Defined.

Lemma lower_char_idempotent (c : ascii) :
  Str.lower_char (Str.lower_char c) = Str.lower_char c.
Proof. destruct c as [[] [] [] [] [] [] [] []]; reflexivity. Qed.

Lemma lower_idempotent (s : string) : Str.lower (Str.lower s) = Str.lower s.
Proof.
  induction s as [|a s IH]; simpl; [reflexivity | ].
  now rewrite lower_char_idempotent, IH.
Qed.

(** X23. The letter case of a generator name plays no role in
    [is_multi_config]: a name is classed like its lowercased form, so that
    "NINJA MULTI-CONFIG" and "ninja multi-config" are classed alike. *)
Theorem is_multi_config_ignores_case (generator : string) :
  is_multi_config (Str.lower generator) = is_multi_config generator.
Proof. unfold is_multi_config. now rewrite lower_idempotent. Qed.

(** C8. Malformed output on which [choose_generator] raises. The build
    tool exits with 0 and prints a JSON list, the JSON null, or an object
    whose "generators" member is null: none of them is a manifest, and
    [choose_generator] raises [AttributeError], [AttributeError] and
    [TypeError], where it is to return none. *)
Theorem choose_generator_raises_on_malformed :
  snd (choose_generator (printing "[]" (JArr [])) PREFERRED_GENERATORS boot)
  = Raise AttributeError /\
  snd (choose_generator (printing "null" JNull) PREFERRED_GENERATORS boot)
  = Raise AttributeError /\
  snd (choose_generator
         (printing ("{" ++ QUOTE ++ "generators" ++ QUOTE ++ ": null}")
            (JObj [("generators", JNull)]))
         PREFERRED_GENERATORS boot)
  = Raise TypeError.
Proof. repeat split; reflexivity. Qed.
